(** * OCI ownership validation

    A shallow embedding of the validator of package [registries]
    (functions [ValidateOCI], [parseImageReference], [getDockerIoAuthToken],
    [getSpecificManifest], [getImageConfig]) together with the constants of
    [pkg/model/constants.go] it uses. Line numbers are those of
    [internal/validators/registries/oci_dockerhub_test.go], where the text
    of the validator begins at line 550.

    Go strings are byte sequences: they are [string] (lists of [ascii]).
    Go errors are observed through their message only: an error is its
    message, and [fmt.Errorf("...: %w", err)] prepends a prefix to it.
    The network, the JSON decoder and the URL parser of the standard library
    are an explicit environment [Env]; every outbound request is recorded in
    a [World] that is threaded through the calls. *)

From Stdlib Require Import ZArith String Ascii DecimalString.
From stdpp Require Import gmap strings list fin_maps.

Open Scope string_scope.
Open Scope list_scope.

(** ** The pieces of Go's [strings] and [fmt] packages the code calls *)

Module GoStrings.

(** [strings.HasPrefix(s, prefix)] *)
Definition HasPrefix (s prefix : string) : bool := String.prefix prefix s.

(** [strings.Contains(s, substr)]: some suffix of [s] starts with [substr]. *)
Fixpoint Contains (s substr : string) : bool :=
  HasPrefix s substr ||
  match s with
  | EmptyString => false
  | String _ s' => Contains s' substr
  end.

(** [strings.Split(s, sep)] for a one-byte separator: the segments between
    consecutive separators, always at least one segment (the empty
    string splits into the list holding the empty string). *)
Fixpoint Split (s : string) (sep : ascii) : list string :=
  match s with
  | EmptyString => [EmptyString]
  | String c s' =>
      if Ascii.eqb c sep then EmptyString :: Split s' sep
      else match Split s' sep with
           | seg :: segs => String c seg :: segs
           | [] => [String c EmptyString]
           end
  end.

(** [strings.Join(elems, sep)] *)
Fixpoint Join (elems : list string) (sep : string) : string :=
  match elems with
  | [] => EmptyString
  | [e] => e
  | e :: rest => e +:+ sep +:+ Join rest sep
  end.

(** The verb [%d] of [fmt] on an [int]. *)
Definition fmtInt (n : Z) : string := NilZero.string_of_int (Z.to_int n).

(** Number of occurrences of the byte [c] in [s]. *)
Fixpoint count (c : ascii) (s : string) : nat :=
  match s with
  | EmptyString => 0
  | String c' s' => (if Ascii.eqb c' c then 1 else 0) + count c s'
  end.

End GoStrings.

(** ** [pkg/model]: registry base URLs and the package descriptor *)

Module model.

Definition RegistryURLDocker := "https://docker.io".
Definition RegistryURLGHCR := "https://ghcr.io".
Definition RegistryURLGAR := "https://artifactregistry.googleapis.com".
Definition RegistryURLGCR := "https://gcr.io".
Definition RegistryURLECR := "https://public.ecr.aws".
Definition RegistryURLACR := "https://azurecr.io".
Definition RegistryURLQuay := "https://quay.io".
Definition RegistryURLGitLabCR := "https://registry.gitlab.com".
Definition RegistryURLDockerHub := "https://hub.docker.com".
Definition RegistryURLJFrogCR := "https://jfrog.io".
Definition RegistryURLHarborCR := "https://goharbor.io".
Definition RegistryURLAlibabaACR := "https://cr.console.aliyun.com".
Definition RegistryURLIBMCR := "https://icr.io".
Definition RegistryURLOracleCR := "https://container-registry.oracle.com".
Definition RegistryURLDigitalOceanCR := "https://registry.digitalocean.com".

(** [model.Package], with the fields the validator reads. *)
Record Package := {
  RegistryType : string;
  RegistryBaseURL : string;
  Identifier : string;
  Version : string
}.

Definition withRegistryBaseURL (url : string) (pkg : Package) : Package :=
  {| RegistryType := RegistryType pkg;
     RegistryBaseURL := url;
     Identifier := Identifier pkg;
     Version := Version pkg |}.

End model.

(** ** [internal/validators/registries] *)

Module registries.
Import GoStrings model.

Definition dockerIoAPIBaseURL := "https://registry-1.docker.io".

(** [OCIAuthResponse] *)
Record OCIAuthResponse := { Token : string }.

(** The anonymous [struct { Digest string }] of [OCIManifest]. *)
Record Descriptor := { Digest : string }.

(** [OCIManifest] *)
Record OCIManifest := {
  Manifests : list Descriptor;
  Config : Descriptor
}.

(** [OCIImageConfig]: [ImageConfig] is its field [Config], whose [Labels]
    is a Go map (a nil map reads like the empty one). *)
Record ImageConfigBody := { Labels : gmap string string }.
Record OCIImageConfig := { ImageConfig : ImageConfigBody }.

(** *** Errors *)

Inductive Result (A : Type) : Type :=
| Ok (a : A)
| Err (msg : string).
Arguments Ok {A} a.
Arguments Err {A} msg.

(** [fmt.Errorf(prefix + "%w", err)] on the error of a result. *)
Definition wrapErr {A} (prefix : string) (r : Result A) : Result A :=
  match r with
  | Ok a => Ok a
  | Err msg => Err (prefix +:+ msg)
  end.

(** *** HTTP *)

Inductive Context := nilContext | liveContext.

Record Request := {
  Method : string;
  URL : string;
  Header : gmap string string
}.

Record Response := {
  StatusCode : Z;
  Body : string
}.

Definition StatusOK : Z := 200.
Definition StatusUnauthorized : Z := 401.
Definition StatusNotFound : Z := 404.
Definition StatusTooManyRequests : Z := 429.
Definition MethodGet := "GET".

(** [req.Header.Set(key, value)] *)
Definition HeaderSet (key value : string) (req : Request) : Request :=
  {| Method := Method req; URL := URL req;
     Header := <[key := value]> (Header req) |}.

(** What the code relies on and does not define: the URL parser behind
    [http.NewRequestWithContext] ([Some msg] is its error), the remote side
    behind [client.Do] (its answer may depend on the requests made before;
    [inl msg] is a transport error, a timeout or a cancellation) and
    [json.NewDecoder(body).Decode] at the three types decoded. *)
Record Env := {
  url_error : string -> option string;
  transport : list Request -> Request -> string + Response;
  decode_auth : string -> Result OCIAuthResponse;
  decode_manifest : string -> Result OCIManifest;
  decode_config : string -> Result OCIImageConfig
}.

(** The requests made so far, oldest first, and the lines written with
    [log.Printf]. *)
Record World := {
  sent : list Request;
  logged : list string
}.

(** *** Computations that make requests and may fail *)

Definition M (A : Type) : Type := World -> Result A * World.

Definition ret {A} (a : A) : M A := fun w => (Ok a, w).

Definition fail {A} (msg : string) : M A := fun w => (Err msg, w).

Definition bind {A B} (m : M A) (k : A -> M B) : M B :=
  fun w =>
    match m w with
    | (Ok a, w') => k a w'
    | (Err msg, w') => (Err msg, w')
    end.

Definition lift {A} (r : Result A) : M A := fun w => (r, w).

(** [x, err := m; if err != nil { return fmt.Errorf(prefix + "%w", err) }] *)
Definition try {A} (prefix : string) (m : M A) : M A :=
  fun w => let (r, w') := m w in (wrapErr prefix r, w').

Notation "'do' x <- m ; k" := (bind m (fun x => k))
  (at level 10, x name, m at level 100, k at level 200).

(** [http.NewRequestWithContext(ctx, method, url, nil)] *)
Definition NewRequestWithContext (E : Env) (ctx : Context)
    (method url : string) : Result Request :=
  match ctx with
  | nilContext => Err "net/http: nil Context"
  | liveContext =>
      match url_error E url with
      | Some msg => Err msg
      | None => Ok {| Method := method; URL := url; Header := ∅ |}
      end
  end.

(** [client.Do(req)] *)
Definition clientDo (E : Env) (req : Request) : M Response :=
  fun w =>
    let w' := {| sent := sent w ++ [req]; logged := logged w |} in
    match transport E (sent w) req with
    | inl msg => (Err msg, w')
    | inr resp => (Ok resp, w')
    end.

(** [log.Printf(line)] *)
Definition logPrintf (line : string) : M unit :=
  fun w => (Ok tt, {| sent := sent w; logged := logged w ++ [line] |}).

(** *** [parseImageReference] *)

Definition parseImageReference (identifier : string)
    : Result (string * string) :=
  match Split identifier "/" with
  | [p0; p1] => Ok (p0, p1)
  | [p0] => Ok ("library", p0)
  | _ => Err ("invalid image reference: " +:+ identifier)
  end.

(** *** [getDockerIoAuthToken] *)

Definition authURL (namespace repo : string) : string :=
  "https://auth.docker.io/token?service=registry.docker.io&scope=repository:"
  +:+ namespace +:+ "/" +:+ repo +:+ ":pull".

Definition getDockerIoAuthToken (E : Env) (ctx : Context)
    (namespace repo : string) : M string :=
  do req <- try "failed to create auth request: "
              (lift (NewRequestWithContext E ctx MethodGet
                       (authURL namespace repo)));
  do resp <- try "failed to request auth token: " (clientDo E req);
  if negb (StatusCode resp =? StatusOK)%Z then
    fail ("auth request failed with status " +:+ fmtInt (StatusCode resp))
  else
    do authResp <- try "failed to parse auth response: "
                     (lift (decode_auth E (Body resp)));
    ret (Token authResp).

(** The block shared by the three fetches: ask for a token and set the
    [Authorization] header. *)
Definition setDockerBearer (E : Env) (ctx : Context)
    (namespace repo : string) (req : Request) : M Request :=
  do token <- try "failed to authenticate with Docker registry: "
                (getDockerIoAuthToken E ctx namespace repo);
  ret (HeaderSet "Authorization" ("Bearer " +:+ token) req).

(** *** [getSpecificManifest] *)

Definition manifestURL (apiBaseURL namespace repo reference : string) : string :=
  apiBaseURL +:+ "/v2/" +:+ namespace +:+ "/" +:+ repo +:+ "/manifests/"
  +:+ reference.

(** Lines 793-810: the request for the manifest of one platform. *)
Definition specificManifestRequest (E : Env) (ctx : Context)
    (apiBaseURL namespace repo digest : string) : M Request :=
  do req <- try "failed to create specific manifest request: "
              (lift (NewRequestWithContext E ctx MethodGet
                       (manifestURL apiBaseURL namespace repo digest)));
  do req <- (if String.eqb apiBaseURL dockerIoAPIBaseURL
             then setDockerBearer E ctx namespace repo req
             else ret req);
  let req := HeaderSet "Accept" "application/vnd.oci.image.manifest.v1+json" req in
  let req := HeaderSet "User-Agent" "MCP-Registry-Validator/1.0" req in
  ret req.

Definition getSpecificManifest (E : Env) (ctx : Context)
    (apiBaseURL namespace repo digest : string) : M OCIManifest :=
  do req <- specificManifestRequest E ctx apiBaseURL namespace repo digest;
  do resp <- try "failed to fetch specific manifest: " (clientDo E req);
  if negb (StatusCode resp =? StatusOK)%Z then
    fail ("specific manifest not found (status: "
          +:+ fmtInt (StatusCode resp) +:+ ")")
  else
    try "failed to parse specific manifest: "
      (lift (decode_manifest E (Body resp))).

(** *** [getImageConfig] *)

Definition blobURL (apiBaseURL namespace repo digest : string) : string :=
  apiBaseURL +:+ "/v2/" +:+ namespace +:+ "/" +:+ repo +:+ "/blobs/"
  +:+ digest.

(** Lines 832-849: the request for the config blob. *)
Definition imageConfigRequest (E : Env) (ctx : Context)
    (apiBaseURL namespace repo configDigest : string) : M Request :=
  do req <- try "failed to create config request: "
              (lift (NewRequestWithContext E ctx MethodGet
                       (blobURL apiBaseURL namespace repo configDigest)));
  do req <- (if String.eqb apiBaseURL dockerIoAPIBaseURL
             then setDockerBearer E ctx namespace repo req
             else ret req);
  let req := HeaderSet "Accept"
               "application/vnd.docker.distribution.manifest.v2+json" req in
  let req := HeaderSet "User-Agent" "MCP-Registry-Validator/1.0" req in
  ret req.

Definition getImageConfig (E : Env) (ctx : Context)
    (apiBaseURL namespace repo configDigest : string) : M OCIImageConfig :=
  do req <- imageConfigRequest E ctx apiBaseURL namespace repo configDigest;
  do resp <- try "failed to fetch image config: " (clientDo E req);
  if negb (StatusCode resp =? StatusOK)%Z then
    fail ("image config not found (status: "
          +:+ fmtInt (StatusCode resp) +:+ ")")
  else
    try "failed to parse image config: "
      (lift (decode_config E (Body resp))).

(** *** [ValidateOCI]

    The function is embedded block by block, in the order of its text; each
    block is the code from the lines named to the end of the function, so
    that [ValidateOCI] is literally the sequence of its statements. *)

(** Lines 592-595: the default registry for an empty base URL (the
    assignment is to the function's own copy of [pkg]). *)
Definition defaultRegistry (pkg : Package) : Package :=
  if String.eqb (RegistryBaseURL pkg) EmptyString then
    withRegistryBaseURL RegistryURLDocker pkg
  else pkg.

(** Lines 597-614: the map literal [supportedRegistries]. *)
Definition supportedRegistries : gmap string string :=
  list_to_map [
    (RegistryURLDocker, dockerIoAPIBaseURL);
    (RegistryURLGHCR, "https://ghcr.io");
    (RegistryURLGAR, "https://artifactregistry.googleapis.com");
    (RegistryURLGCR, "https://gcr.io");
    (RegistryURLECR, "https://public.ecr.aws");
    (RegistryURLACR, "https://azurecr.io");
    (RegistryURLQuay, "https://quay.io");
    (RegistryURLGitLabCR, "https://registry.gitlab.com");
    (RegistryURLDockerHub, dockerIoAPIBaseURL);
    (RegistryURLJFrogCR, "https://jfrog.io");
    (RegistryURLHarborCR, "https://goharbor.io");
    (RegistryURLAlibabaACR, "https://cr.console.aliyun.com");
    (RegistryURLIBMCR, "https://icr.io");
    (RegistryURLOracleCR, "https://container-registry.oracle.com");
    (RegistryURLDigitalOceanCR, "https://registry.digitalocean.com")
  ].

(** Lines 619-633: the conditions of the [if]/[else if] chain, in order. *)
Definition fallbacks : list (string -> bool) := [
  (fun url => Contains url "-docker.pkg.dev");
  (fun url => Contains url ".gcr.io");
  (fun url => Contains url ".amazonaws.com");
  (fun url => Contains url ".azurecr.io");
  (fun url => HasPrefix url "http://127.0.0.1:" || HasPrefix url "http://localhost:")
].

Definition supportedList : list string :=
  ["docker.io"; "ghcr.io"; "gcr.io"; "quay.io"; "artifactregistry.googleapis.com"].

Definition unsupportedRegistryError (url : string) : string :=
  "unsupported OCI registry: '" +:+ url +:+ "'. Supported registries: "
  +:+ Join supportedList ", ".

(** Lines 616-639, on the base URL after [defaultRegistry]: the value of
    [apiBaseURL], or the error returned. *)
Definition resolveAPIBaseURL (registryBaseURL : string) : Result string :=
  match supportedRegistries !! registryBaseURL with
  | Some apiBaseURL => Ok apiBaseURL
  | None =>
      if Contains registryBaseURL "-docker.pkg.dev" then Ok registryBaseURL
      else if Contains registryBaseURL ".gcr.io" then Ok registryBaseURL
      else if Contains registryBaseURL ".amazonaws.com" then Ok registryBaseURL
      else if Contains registryBaseURL ".azurecr.io" then Ok registryBaseURL
      else if HasPrefix registryBaseURL "http://127.0.0.1:"
              || HasPrefix registryBaseURL "http://localhost:"
      then Ok registryBaseURL
      else Err (unsupportedRegistryError registryBaseURL)
  end.

(** Lines 658-689: the [switch] on the registry; every case but the first
    is empty. *)
Definition authenticate (E : Env) (ctx : Context) (pkg : Package)
    (apiBaseURL namespace repo : string) (req : Request) : M Request :=
  if String.eqb apiBaseURL dockerIoAPIBaseURL then
    setDockerBearer E ctx namespace repo req
  else if String.eqb (RegistryBaseURL pkg) RegistryURLGHCR then ret req
  else if String.eqb (RegistryBaseURL pkg) RegistryURLGAR
          || Contains (RegistryBaseURL pkg) "-docker.pkg.dev" then ret req
  else if String.eqb (RegistryBaseURL pkg) RegistryURLQuay then ret req
  else if String.eqb (RegistryBaseURL pkg) RegistryURLGitLabCR then ret req
  else if Contains (RegistryBaseURL pkg) ".gcr.io" then ret req
  else if Contains (RegistryBaseURL pkg) "public.ecr.aws" then ret req
  else ret req.

(** The image reference as the messages print it:
    ['%s/%s:%s'] of [namespace], [repo], [tag]. *)
Definition quotedRef (namespace repo tag : string) : string :=
  "'" +:+ namespace +:+ "/" +:+ repo +:+ ":" +:+ tag +:+ "'".

Definition serverNameLabel := "io.modelcontextprotocol.server.name".

(** The byte 0x22, the double quote of [\"%s\"]. *)
Definition dquote : ascii := "034"%char.

(** Lines 740-749: the label check. *)
Definition checkServerName (labels : gmap string string)
    (namespace repo tag serverName : string) : Result unit :=
  match labels !! serverNameLabel with
  | None =>
      Err ("OCI image " +:+ quotedRef namespace repo tag
           +:+ " is missing required annotation. Add this to your Dockerfile: LABEL io.modelcontextprotocol.server.name="
           +:+ String dquote serverName +:+ String dquote EmptyString)
  | Some mcpName =>
      if negb (String.eqb mcpName serverName) then
        Err ("OCI image ownership validation failed. Expected annotation 'io.modelcontextprotocol.server.name' = '"
             +:+ serverName +:+ "', got '" +:+ mcpName +:+ "'")
      else Ok tt
  end.

(** Lines 730-749: from the check of [configDigest] on. *)
Definition validateConfigDigest (E : Env) (ctx : Context)
    (apiBaseURL namespace repo tag serverName configDigest : string) : M unit :=
  if String.eqb configDigest EmptyString then
    fail ("unable to determine image config digest for "
          +:+ quotedRef namespace repo tag)
  else
    do config <- try "failed to get image config: "
                   (getImageConfig E ctx apiBaseURL namespace repo configDigest);
    lift (checkServerName (Labels (ImageConfig config))
            namespace repo tag serverName).

(** Lines 717-749: from the decoded manifest on. *)
Definition validateManifest (E : Env) (ctx : Context)
    (apiBaseURL namespace repo tag serverName : string)
    (manifest : OCIManifest) : M unit :=
  do configDigest <-
    match Manifests manifest with
    | first :: _ =>
        do specificManifest <- try "failed to get specific manifest: "
             (getSpecificManifest E ctx apiBaseURL namespace repo (Digest first));
        ret (Digest (Config specificManifest))
    | [] => ret (Digest (Config manifest))
    end;
  validateConfigDigest E ctx apiBaseURL namespace repo tag serverName
    configDigest.

(** Lines 700-749: from the response to the first manifest request on. *)
Definition validateManifestResponse (E : Env) (ctx : Context)
    (apiBaseURL namespace repo tag serverName : string)
    (resp : Response) : M unit :=
  if (StatusCode resp =? StatusNotFound)%Z
     || (StatusCode resp =? StatusUnauthorized)%Z then
    fail ("OCI image " +:+ quotedRef namespace repo tag
          +:+ " not found (status: " +:+ fmtInt (StatusCode resp) +:+ ")")
  else if (StatusCode resp =? StatusTooManyRequests)%Z then
    do _ <- logPrintf ("Warning: Rate limited when accessing OCI image "
                       +:+ quotedRef namespace repo tag
                       +:+ ". Skipping validation.");
    ret tt
  else if negb (StatusCode resp =? StatusOK)%Z then
    fail ("failed to fetch OCI manifest (status: "
          +:+ fmtInt (StatusCode resp) +:+ ")")
  else
    do manifest <- try "failed to parse OCI manifest: "
                     (lift (decode_manifest E (Body resp)));
    validateManifest E ctx apiBaseURL namespace repo tag serverName manifest.

(** Lines 651-692: the first manifest request, built and authenticated. *)
Definition manifestRequest (E : Env) (ctx : Context) (pkg : Package)
    (apiBaseURL namespace repo tag : string) : M Request :=
  do req <- try "failed to create manifest request: "
              (lift (NewRequestWithContext E ctx MethodGet
                       (manifestURL apiBaseURL namespace repo tag)));
  do req <- authenticate E ctx pkg apiBaseURL namespace repo req;
  let req := HeaderSet "Accept"
               "application/vnd.docker.distribution.manifest.v2+json,application/vnd.oci.image.manifest.v1+json"
               req in
  let req := HeaderSet "User-Agent" "MCP-Registry-Validator/1.0" req in
  ret req.

Definition ValidateOCI (E : Env) (ctx : Context) (pkg : Package)
    (serverName : string) : M unit :=
  let pkg := defaultRegistry pkg in
  do apiBaseURL <- lift (resolveAPIBaseURL (RegistryBaseURL pkg));
  do ref <- try "invalid OCI image reference: "
              (lift (parseImageReference (Identifier pkg)));
  let namespace := fst ref in
  let repo := snd ref in
  let tag := Version pkg in
  do req <- manifestRequest E ctx pkg apiBaseURL namespace repo tag;
  do resp <- try "failed to fetch OCI manifest: " (clientDo E req);
  validateManifestResponse E ctx apiBaseURL namespace repo tag serverName resp.

End registries.

Import GoStrings model registries.

(** ** How far a run of [ValidateOCI] has come

    The statements below speak of a run that has reached a given point of
    [ValidateOCI]; these predicates name the points, each by the calls made
    up to it and what they returned. *)

(** The first manifest request was answered by [resp]. *)
Definition manifestFetched (E : Env) (ctx : Context) (pkg : Package)
    (w : World) (apiBaseURL namespace repo tag : string)
    (resp : Response) (w' : World) : Prop :=
  resolveAPIBaseURL (RegistryBaseURL (defaultRegistry pkg)) = Ok apiBaseURL /\
  parseImageReference (Identifier pkg) = Ok (namespace, repo) /\
  tag = Version pkg /\
  exists req w1,
    manifestRequest E ctx (defaultRegistry pkg) apiBaseURL namespace repo tag w
      = (Ok req, w1) /\
    clientDo E req w1 = (Ok resp, w').

(** The answer had status 200 and a body that decoded to [manifest]. *)
Definition manifestDecoded (E : Env) (ctx : Context) (pkg : Package)
    (w : World) (apiBaseURL namespace repo tag : string)
    (manifest : OCIManifest) (w' : World) : Prop :=
  exists resp,
    manifestFetched E ctx pkg w apiBaseURL namespace repo tag resp w' /\
    StatusCode resp = StatusOK /\
    decode_manifest E (Body resp) = Ok manifest.

(** [configDigest] was assigned [digest] (line 725 or line 727). *)
Definition digestResolved (E : Env) (ctx : Context) (pkg : Package)
    (w : World) (apiBaseURL namespace repo tag : string)
    (digest : string) (w' : World) : Prop :=
  exists manifest w1,
    manifestDecoded E ctx pkg w apiBaseURL namespace repo tag manifest w1 /\
    match Manifests manifest with
    | first :: _ =>
        exists specificManifest,
          getSpecificManifest E ctx apiBaseURL namespace repo (Digest first) w1
            = (Ok specificManifest, w') /\
          digest = Digest (Config specificManifest)
    | [] => digest = Digest (Config manifest) /\ w' = w1
    end.

(** [getImageConfig] returned [config] (line 735). *)
Definition configFetched (E : Env) (ctx : Context) (pkg : Package)
    (w : World) (apiBaseURL namespace repo tag : string)
    (config : OCIImageConfig) (w' : World) : Prop :=
  exists digest w1,
    digestResolved E ctx pkg w apiBaseURL namespace repo tag digest w1 /\
    digest <> EmptyString /\
    getImageConfig E ctx apiBaseURL namespace repo digest w1 = (Ok config, w').

(** The request [getDockerIoAuthToken] makes: a plain GET, no header. *)
Definition tokenRequest (namespace repo : string) : Request :=
  {| Method := MethodGet; URL := authURL namespace repo; Header := ∅ |}.

(** The requests of a run against Docker Hub, made after [history]: every
    fetch is preceded by a token request of its own, answered with status
    200 and a decodable body, and carries the token of that answer as its
    bearer credential; a token request that is not answered so is the last
    request of the run. *)
Fixpoint handshakes (E : Env) (namespace repo : string)
    (history : list Request) (reqs : list Request) : Prop :=
  match reqs with
  | [] => True
  | [q] => q = tokenRequest namespace repo
  | q :: fetch :: rest =>
      q = tokenRequest namespace repo /\
      (exists resp auth,
         transport E history q = inr resp /\
         StatusCode resp = StatusOK /\
         decode_auth E (Body resp) = Ok auth /\
         Header fetch !! "Authorization" = Some ("Bearer " +:+ Token auth)) /\
      handshakes E namespace repo (history ++ [q; fetch]) rest
  end.

(** A request without credentials. *)
Definition anonymous (req : Request) : Prop :=
  Header req !! "Authorization" = None.

(** The requests one fetch of [url] makes after [history], and whether the
    fetch itself was sent: none when the request cannot be created; against
    Docker Hub the token request alone when no token is obtained, else the
    token request and the fetch carrying the token; against any other
    registry the fetch alone, without credentials. *)
Inductive fetchTrace (E : Env) (apiBaseURL namespace repo url : string)
    (history : list Request) : bool -> list Request -> Prop :=
| fetch_not_created :
    fetchTrace E apiBaseURL namespace repo url history false []
| fetch_no_token :
    apiBaseURL = dockerIoAPIBaseURL ->
    fetchTrace E apiBaseURL namespace repo url history false
      [tokenRequest namespace repo]
| fetch_with_token (resp : Response) (auth : OCIAuthResponse) (fetch : Request) :
    apiBaseURL = dockerIoAPIBaseURL ->
    transport E history (tokenRequest namespace repo) = inr resp ->
    StatusCode resp = StatusOK ->
    decode_auth E (Body resp) = Ok auth ->
    Header fetch !! "Authorization" = Some ("Bearer " +:+ Token auth) ->
    URL fetch = url ->
    fetchTrace E apiBaseURL namespace repo url history true
      [tokenRequest namespace repo; fetch]
| fetch_anonymous (fetch : Request) :
    apiBaseURL <> dockerIoAPIBaseURL ->
    anonymous fetch ->
    URL fetch = url ->
    fetchTrace E apiBaseURL namespace repo url history true [fetch].

(** What a block that builds the request for [url] does: nothing is
    logged; against Docker Hub it sends the token request (or fails before)
    and the request it returns carries the token received; against any
    other registry it sends nothing and the request it returns carries no
    credentials. *)
Definition prepares (E : Env) (apiBaseURL namespace repo url : string)
    (builder : M Request) : Prop :=
  forall (w w' : World) (r : Result Request),
    builder w = (r, w') ->
    logged w' = logged w /\
    ((sent w' = sent w /\
      forall req, r = Ok req ->
        apiBaseURL <> dockerIoAPIBaseURL /\ anonymous req /\ URL req = url) \/
     (apiBaseURL = dockerIoAPIBaseURL /\
      sent w' = sent w ++ [tokenRequest namespace repo] /\
      forall req, r = Ok req ->
        exists resp auth,
          transport E (sent w) (tokenRequest namespace repo) = inr resp /\
          StatusCode resp = StatusOK /\
          decode_auth E (Body resp) = Ok auth /\
          Header req !! "Authorization" = Some ("Bearer " +:+ Token auth) /\
          URL req = url)).

(** The requests of a run: fetch after fetch, each one sent before the
    next is begun. *)
Inductive runTrace (E : Env) (apiBaseURL namespace repo : string)
    (history : list Request) : list Request -> Prop :=
| run_done : runTrace E apiBaseURL namespace repo history []
| run_fetch (url : string) (sent_ : bool) (reqs rest : list Request) :
    fetchTrace E apiBaseURL namespace repo url history sent_ reqs ->
    (sent_ = false -> rest = []) ->
    runTrace E apiBaseURL namespace repo (history ++ reqs) rest ->
    runTrace E apiBaseURL namespace repo history (reqs ++ rest).

(** Whether a result is a value. *)
Definition isOk {A} (r : Result A) : bool :=
  match r with Ok _ => true | Err _ => false end.

(** The invariant of section 3 of the specification on a resolved image
    reference. *)
Definition refInvariant (namespace repo : string) : Prop :=
  namespace <> EmptyString /\ repo <> EmptyString.

(** ** A registry for the examples

    A local registry at [http://127.0.0.1:5000]: [routes] maps a URL to the
    response served for it (no entry: the connection is refused), and the
    tables [manifests] and [configs] say which bodies decode, and to what.
    The token endpoint's body is the token itself. *)

Module mock.

Fixpoint assoc {A} (key : string) (table : list (string * A)) : option A :=
  match table with
  | [] => None
  | (k, v) :: rest => if String.eqb k key then Some v else assoc key rest
  end.

Definition decodeWith {A} (table : list (string * A)) (body : string) : Result A :=
  match assoc body table with
  | Some v => Ok v
  | None => Err "invalid character"
  end.

Definition env (routes : list (string * Response))
    (manifests : list (string * OCIManifest))
    (configs : list (string * OCIImageConfig)) : Env :=
  {| url_error := fun _ => None;
     transport := fun _ req =>
       match assoc (URL req) routes with
       | Some resp => inr resp
       | None => inl "connection refused"
       end;
     decode_auth := fun body => Ok {| Token := body |};
     decode_manifest := decodeWith manifests;
     decode_config := decodeWith configs |}.

Definition base := "http://127.0.0.1:5000".

Definition pkg : Package :=
  {| RegistryType := "oci"; RegistryBaseURL := base;
     Identifier := "example/test-server"; Version := "1.0.0" |}.

Definition dockerPkg : Package :=
  {| RegistryType := "oci"; RegistryBaseURL := EmptyString;
     Identifier := "nginx"; Version := "latest" |}.

Definition world0 : World := {| sent := []; logged := [] |}.

Definition ok (body : string) : Response :=
  {| StatusCode := 200; Body := body |}.

Definition status (code : Z) : Response :=
  {| StatusCode := code; Body := EmptyString |}.

Definition concrete : OCIManifest :=
  {| Manifests := []; Config := {| Digest := "sha256:abc123" |} |}.

Definition index : OCIManifest :=
  {| Manifests := [ {| Digest := "sha256:amd64" |}; {| Digest := "sha256:arm64" |} ];
     Config := {| Digest := EmptyString |} |}.

Definition labelled (owner : string) : OCIImageConfig :=
  {| ImageConfig := {| Labels := {[ serverNameLabel := owner ]} |} |}.

Definition topURL := manifestURL base "example" "test-server" "1.0.0".
Definition amd64URL := manifestURL base "example" "test-server" "sha256:amd64".
Definition configURL := blobURL base "example" "test-server" "sha256:abc123".

(** The requests the validator makes of the local registry. *)
Definition get (url accept : string) : Request :=
  HeaderSet "User-Agent" "MCP-Registry-Validator/1.0"
    (HeaderSet "Accept" accept
       {| Method := MethodGet; URL := url; Header := ∅ |}).

Definition topRequest : Request :=
  get topURL
    "application/vnd.docker.distribution.manifest.v2+json,application/vnd.oci.image.manifest.v1+json".

Definition amd64Request : Request :=
  get amd64URL "application/vnd.oci.image.manifest.v1+json".

Definition configRequest : Request :=
  get configURL "application/vnd.docker.distribution.manifest.v2+json".

(** The world in which [reqs] have been sent and nothing logged. *)
Definition after (reqs : list Request) : World :=
  {| sent := reqs; logged := [] |}.

(** A single-platform image labelled [com.example/test-server]. *)
Definition single : Env :=
  env [(topURL, ok "manifest"); (configURL, ok "config")]
      [("manifest", concrete)]
      [("config", labelled "com.example/test-server")].

(** A multi-platform image: the index, the manifest of its first platform
    and the config blob. *)
Definition multi : Env :=
  env [(topURL, ok "index"); (amd64URL, ok "manifest"); (configURL, ok "config")]
      [("index", index); ("manifest", concrete)]
      [("config", labelled "com.example/test-server")].

(** The first manifest request is answered with [code]. *)
Definition answering (code : Z) : Env :=
  env [(topURL, status code)] [] [].

(** The index is served, the manifest of its first platform is rate
    limited. *)
Definition limitedPlatform : Env :=
  env [(topURL, ok "index"); (amd64URL, status 429)]
      [("index", index)] [].

(** The manifest is served, the config blob is rate limited. *)
Definition limitedConfig : Env :=
  env [(topURL, ok "manifest"); (configURL, status 429)]
      [("manifest", concrete)] [].

(** Docker Hub serving [library/nginx:latest]. *)
Definition dockerHub : Env :=
  env [(authURL "library" "nginx", ok "t0k3n");
       (manifestURL dockerIoAPIBaseURL "library" "nginx" "latest", ok "manifest");
       (blobURL dockerIoAPIBaseURL "library" "nginx" "sha256:abc123", ok "config")]
      [("manifest", concrete)]
      [("config", labelled "com.example/test-server")].

End mock.

(** ** Judgements on computations

    Three judgements on a computation [m], each closed under [bind], [try]
    and the other ways computations are put together. *)

(** [m] makes at most [n] requests, each satisfying [P], and a value it
    returns satisfies [Q]. *)
Definition sends {A} (n : nat) (P : Request -> Prop) (Q : A -> Prop)
    (m : M A) : Prop :=
  forall (w w' : World) (r : Result A),
    m w = (r, w') ->
    (forall a, r = Ok a -> Q a) /\
    exists reqs,
      sent w' = sent w ++ reqs /\ length reqs <= n /\ Forall P reqs.

(** Every error of [m] has a message satisfying [R]. *)
Definition errs {A} (R : string -> Prop) (m : M A) : Prop :=
  forall (w w' : World) (msg : string), m w = (Err msg, w') -> R msg.

(** [m] writes nothing to the log. *)
Definition quiet {A} (m : M A) : Prop :=
  forall (w w' : World) (r : Result A), m w = (r, w') -> logged w' = logged w.

(** The token requests a fetch costs: one against Docker Hub. *)
Definition tokenCost (apiBaseURL : string) : nat :=
  if String.eqb apiBaseURL dockerIoAPIBaseURL then 1 else 0.

Definition userAgent := "MCP-Registry-Validator/1.0".

(** A request as the three building blocks return it: a GET of [url] with
    the validator's [User-Agent]. *)
Definition built (url : string) (req : Request) : Prop :=
  Method req = MethodGet /\ URL req = url /\
  Header req !! "User-Agent" = Some userAgent.

(** Where a request of a run may go: to the token endpoint, against Docker
    Hub only, or with a GET carrying the validator's [User-Agent] to a path
    under [/v2/namespace/repo/] of the resolved API base URL. *)
Definition onOrigin (apiBaseURL namespace repo : string) (req : Request) : Prop :=
  (apiBaseURL = dockerIoAPIBaseURL /\ req = tokenRequest namespace repo) \/
  (Method req = MethodGet /\
   HasPrefix (URL req)
     (apiBaseURL +:+ "/v2/" +:+ namespace +:+ "/" +:+ repo +:+ "/") = true /\
   Header req !! "User-Agent" = Some userAgent).

(** The texts the errors of [ValidateOCI] begin with, one or two for each
    stage. *)
Definition stagePrefixes : list string := [
  "unsupported OCI registry: ";
  "invalid OCI image reference: ";
  "failed to create manifest request: ";
  "failed to authenticate with Docker registry: ";
  "failed to fetch OCI manifest";
  "failed to parse OCI manifest: ";
  "failed to get specific manifest: ";
  "unable to determine image config digest for ";
  "failed to get image config: ";
  "OCI image "
].

Definition hasStagePrefix (msg : string) : Prop :=
  Exists (fun stage => HasPrefix msg stage = true) stagePrefixes.

(** A world in which nothing answers. *)
Definition offline : Env := mock.env [] [] [].

(** ** Facts about the string functions *)

Section StringFacts.

Lemma append_cons (x : ascii) (a b : string) :
  String x a +:+ b = String x (a +:+ b).
Proof. reflexivity. Qed.

Lemma append_assoc (a b c : string) : (a +:+ b) +:+ c = a +:+ b +:+ c.
Proof.
  induction a as [|x a IH]; [reflexivity |].
  now rewrite !append_cons, IH.
Qed.

Lemma append_empty_r (a : string) : a +:+ EmptyString = a.
Proof.
  induction a as [|x a IH]; [reflexivity |]. now rewrite append_cons, IH.
Qed.

Lemma HasPrefix_append (p s : string) : HasPrefix (p +:+ s) p = true.
Proof.
  unfold HasPrefix. induction p as [|x p IH].
  - now destruct s.
  - rewrite append_cons. simpl.
    destruct (ascii_dec x x); [exact IH | congruence].
Qed.

Lemma Contains_unfold (s substr : string) :
  Contains s substr =
  HasPrefix s substr ||
  match s with EmptyString => false | String _ s' => Contains s' substr end.
Proof. now destruct s. Qed.

Lemma Contains_HasPrefix (s substr : string) :
  HasPrefix s substr = true -> Contains s substr = true.
Proof. intros H. rewrite Contains_unfold, H. reflexivity. Qed.

(** What follows a prefix is searched too. *)
Lemma Contains_skip (p s substr : string) :
  Contains s substr = true -> Contains (p +:+ s) substr = true.
Proof.
  intros H. induction p as [|x p IH]; [exact H |].
  rewrite append_cons, Contains_unfold, IH. apply orb_true_r.
Qed.

Lemma Contains_middle (a b c : string) : Contains (a +:+ b +:+ c) b = true.
Proof. apply Contains_skip, Contains_HasPrefix, HasPrefix_append. Qed.

Lemma Contains_end (a b : string) : Contains (a +:+ b) b = true.
Proof. rewrite <- (append_empty_r b) at 1. apply Contains_middle. Qed.

Lemma Split_not_nil (s : string) (sep : ascii) : Split s sep <> [].
Proof.
  destruct s as [|c s]; simpl; [discriminate |].
  destruct (Ascii.eqb c sep); [discriminate |].
  destruct (Split s sep); discriminate.
Qed.

(** One segment more than there are separators. *)
Lemma Split_length (s : string) (sep : ascii) :
  length (Split s sep) = S (count sep s).
Proof.
  induction s as [|c s IH]; simpl; [reflexivity |].
  destruct (Ascii.eqb c sep); simpl; [now rewrite IH |].
  pose proof (Split_not_nil s sep).
  destruct (Split s sep); [congruence | exact IH].
Qed.

Lemma Split_no_separator (s : string) (sep : ascii) :
  count sep s = 0 -> Split s sep = [s].
Proof.
  induction s as [|c s IH]; simpl; [reflexivity |].
  destruct (Ascii.eqb c sep); simpl; [discriminate |].
  intros H. now rewrite (IH H).
Qed.

Lemma Split_at_separator (a b : string) (sep : ascii) :
  count sep a = 0 -> Split (a +:+ String sep b) sep = a :: Split b sep.
Proof.
  induction a as [|c a IH]; [| rewrite append_cons]; simpl.
  - now rewrite Ascii.eqb_refl.
  - destruct (Ascii.eqb c sep); simpl; [discriminate |].
    intros H. now rewrite (IH H).
Qed.

(** A string with a separator, cut at the first one. *)
Lemma count_cut (s : string) (sep : ascii) (n : nat) :
  count sep s = S n ->
  exists a b, s = a +:+ String sep b /\ count sep a = 0 /\ count sep b = n.
Proof.
  induction s as [|c s IH]; simpl; [discriminate |].
  destruct (Ascii.eqb c sep) eqn:Hc; simpl.
  - apply Ascii.eqb_eq in Hc. subst c. intros [= H].
    exists EmptyString, s. auto.
  - intros H. destruct (IH H) as (a & b & -> & Ha & Hb).
    exists (String c a), b. simpl. rewrite Hc. auto.
Qed.

Lemma parseImageReference_no_slash (identifier : string) :
  count "/" identifier = 0 ->
  parseImageReference identifier = Ok ("library", identifier).
Proof.
  intros H. unfold parseImageReference.
  now rewrite (Split_no_separator _ _ H).
Qed.

Lemma parseImageReference_one_slash (identifier : string) :
  count "/" identifier = 1 ->
  exists p0 p1,
    identifier = p0 +:+ "/" +:+ p1 /\
    Split identifier "/" = [p0; p1] /\
    parseImageReference identifier = Ok (p0, p1).
Proof.
  intros H. destruct (count_cut _ _ _ H) as (a & b & -> & Ha & Hb).
  exists a, b. unfold parseImageReference.
  rewrite (Split_at_separator _ _ _ Ha), (Split_no_separator _ _ Hb). auto.
Qed.

Lemma parseImageReference_more_slashes (identifier : string) (n : nat) :
  count "/" identifier = S (S n) ->
  parseImageReference identifier
  = Err ("invalid image reference: " +:+ identifier).
Proof.
  intros H. unfold parseImageReference.
  pose proof (Split_length identifier "/") as Hlen. rewrite H in Hlen.
  destruct (Split identifier "/") as [|p0 [|p1 [|p2 rest]]]; try discriminate.
  reflexivity.
Qed.

End StringFacts.

(** ** The image reference parser *)

(** C4. [parseImageReference] splits the identifier on ['/'] into one
    segment more than it has slashes. Without a slash the identifier is the
    only segment and the result is [("library", identifier)]; with exactly
    one slash the two segments are returned as they are; with two or more
    slashes (three or more segments) the call fails with "invalid image
    reference: " followed by the identifier. So ["nginx"] parses to
    [("library", "nginx")] and ["too/many/slashes/here"] is refused. *)
Theorem parseImageReference_segments (identifier : string) :
  length (Split identifier "/") = S (count "/" identifier) /\
  match count "/" identifier with
  | 0 =>
      Split identifier "/" = [identifier] /\
      parseImageReference identifier = Ok ("library", identifier)
  | 1 =>
      exists p0 p1,
        identifier = p0 +:+ "/" +:+ p1 /\
        Split identifier "/" = [p0; p1] /\
        parseImageReference identifier = Ok (p0, p1)
  | _ =>
      parseImageReference identifier
      = Err ("invalid image reference: " +:+ identifier)
  end /\
  parseImageReference "nginx" = Ok ("library", "nginx") /\
  parseImageReference "too/many/slashes/here"
  = Err "invalid image reference: too/many/slashes/here".
Proof.
  split; [apply Split_length |]. split; [| split; reflexivity].
  destruct (count "/" identifier) as [|[|n]] eqn:H.
  - split; [now apply Split_no_separator | now apply parseImageReference_no_slash].
  - now apply parseImageReference_one_slash.
  - now apply (parseImageReference_more_slashes _ n).
Qed.

(** C9, as stated, fails: the empty identifier is accepted and its
    repository is empty. *)
Lemma parseImageReference_empty_identifier :
  parseImageReference EmptyString = Ok ("library", EmptyString) /\
  ~ refInvariant "library" EmptyString.
Proof.
  split; [reflexivity |]. intros [_ H]. now apply H.
Qed.

(** C9, amended. For an identifier that [parseImageReference] accepts, the
    namespace and the repository are both non-empty exactly when no segment
    of the identifier is empty; the namespace is ["library"] and the
    repository the identifier itself when the identifier has no slash. *)
Theorem parseImageReference_invariant (identifier namespace repo : string) :
  parseImageReference identifier = Ok (namespace, repo) ->
  (refInvariant namespace repo <->
   Forall (fun segment => segment <> EmptyString) (Split identifier "/")) /\
  (count "/" identifier = 0 -> namespace = "library" /\ repo = identifier).
Proof.
  intros H. split.
  - unfold parseImageReference in H. unfold refInvariant.
    destruct (Split identifier "/") as [|p0 [|p1 [|p2 rest]]];
      try discriminate; injection H as <- <-.
    + split.
      * intros [_ Hr]. now repeat constructor.
      * intros HF. inversion HF; subst. now split.
    + split.
      * intros [Hn Hr]. now repeat constructor.
      * intros HF. inversion HF as [|? ? ? HF']; subst.
        inversion HF'; subst. now split.
  - intros H0. rewrite (parseImageReference_no_slash _ H0) in H.
    now injection H as <- <-.
Qed.

Lemma parseImageReference_invariant_witness :
  refInvariant "myorg" "myrepo" <->
  Forall (fun segment => segment <> EmptyString) (Split "myorg/myrepo" "/").
Proof.
  exact (proj1 (parseImageReference_invariant "myorg/myrepo" "myorg" "myrepo"
                  eq_refl)).
Defined.

(** ** The registry endpoint resolver *)

Section Resolver.

Lemma defaultRegistry_Identifier (pkg : Package) :
  Identifier (defaultRegistry pkg) = Identifier pkg.
Proof. unfold defaultRegistry. now destruct (String.eqb _ _). Qed.

Lemma defaultRegistry_Version (pkg : Package) :
  Version (defaultRegistry pkg) = Version pkg.
Proof. unfold defaultRegistry. now destruct (String.eqb _ _). Qed.

Lemma defaultRegistry_given (pkg : Package) :
  RegistryBaseURL pkg <> EmptyString -> defaultRegistry pkg = pkg.
Proof.
  intros H. unfold defaultRegistry.
  destruct (String.eqb_spec (RegistryBaseURL pkg) EmptyString); congruence.
Qed.

Lemma defaultRegistry_empty (pkg : Package) :
  RegistryBaseURL pkg = EmptyString ->
  defaultRegistry pkg = withRegistryBaseURL RegistryURLDocker pkg.
Proof. intros H. unfold defaultRegistry. now rewrite H. Qed.

(** Off the table, the chain of conditions decides. *)
Lemma resolveAPIBaseURL_off_table (url : string) :
  supportedRegistries !! url = None ->
  resolveAPIBaseURL url =
  if existsb (fun matches => matches url) fallbacks
  then Ok url else Err (unsupportedRegistryError url).
Proof.
  intros H. unfold resolveAPIBaseURL, fallbacks. rewrite H. simpl.
  destruct (Contains url "-docker.pkg.dev"); [reflexivity |].
  destruct (Contains url ".gcr.io"); [reflexivity |].
  destruct (Contains url ".amazonaws.com"); [reflexivity |].
  destruct (Contains url ".azurecr.io"); [reflexivity |].
  simpl. rewrite orb_false_r. reflexivity.
Qed.

Lemma fallbacks_not_empty (url : string) :
  existsb (fun matches => matches url) fallbacks = true -> url <> EmptyString.
Proof. intros H ->. discriminate H. Qed.

End Resolver.

(** C6. A base URL that is not a key of the provider table and satisfies
    one of the conditions of the fallback chain (it contains
    [-docker.pkg.dev], [.gcr.io], [.amazonaws.com] or [.azurecr.io], or
    starts with [http://127.0.0.1:] or [http://localhost:]) resolves to
    itself, whichever condition it is that holds. *)
Theorem resolve_fallback (pkg : Package) :
  supportedRegistries !! RegistryBaseURL pkg = None ->
  existsb (fun matches => matches (RegistryBaseURL pkg)) fallbacks = true ->
  resolveAPIBaseURL (RegistryBaseURL (defaultRegistry pkg))
  = Ok (RegistryBaseURL pkg).
Proof.
  intros Htable Hmatch.
  rewrite (defaultRegistry_given pkg (fallbacks_not_empty _ Hmatch)).
  now rewrite (resolveAPIBaseURL_off_table _ Htable), Hmatch.
Qed.

(** The regional Artifact Registry host of the specification. *)
Lemma resolve_fallback_witness :
  resolveAPIBaseURL
    (RegistryBaseURL
       (defaultRegistry
          (withRegistryBaseURL "https://us-central1-docker.pkg.dev" mock.pkg)))
  = Ok "https://us-central1-docker.pkg.dev".
Proof.
  apply (resolve_fallback
           (withRegistryBaseURL "https://us-central1-docker.pkg.dev" mock.pkg));
    reflexivity.
Defined.




(** C8. With an empty base URL, [ValidateOCI] is the same computation as
    with the base URL of the default registry, [https://docker.io]: both
    resolve to [https://registry-1.docker.io], and from every world both
    make the same requests and return the same result. *)
Theorem empty_base_url_is_default (E : Env) (ctx : Context) (pkg : Package)
    (serverName : string) :
  RegistryBaseURL pkg = EmptyString ->
  resolveAPIBaseURL (RegistryBaseURL (defaultRegistry pkg))
  = Ok dockerIoAPIBaseURL /\
  resolveAPIBaseURL
    (RegistryBaseURL (defaultRegistry (withRegistryBaseURL RegistryURLDocker pkg)))
  = Ok dockerIoAPIBaseURL /\
  forall w : World,
    ValidateOCI E ctx pkg serverName w
    = ValidateOCI E ctx (withRegistryBaseURL RegistryURLDocker pkg) serverName w.
Proof.
  intros H.
  assert (Hd : defaultRegistry pkg
               = defaultRegistry (withRegistryBaseURL RegistryURLDocker pkg)).
  { rewrite (defaultRegistry_empty pkg H). symmetry.
    now apply defaultRegistry_given. }
  split; [| split].
  - now rewrite (defaultRegistry_empty pkg H).
  - now rewrite <- Hd, (defaultRegistry_empty pkg H).
  - intros w. unfold ValidateOCI. now rewrite Hd.
Qed.

Lemma empty_base_url_is_default_witness :
  ValidateOCI mock.dockerHub liveContext mock.dockerPkg
    "com.example/test-server" mock.world0
  = ValidateOCI mock.dockerHub liveContext
      (withRegistryBaseURL RegistryURLDocker mock.dockerPkg)
      "com.example/test-server" mock.world0.
Proof.
  exact (proj2 (proj2 (empty_base_url_is_default mock.dockerHub liveContext
                         mock.dockerPkg "com.example/test-server" eq_refl))
           mock.world0).
Defined.

(** ** From the points of a run to its result *)

Section Pipeline.

Context (E : Env) (ctx : Context) (pkg : Package) (serverName : string).
Context (apiBaseURL namespace repo tag : string).

Lemma bind_Ok {A B} (m : M A) (k : A -> M B) (w w' : World) (a : A) :
  m w = (Ok a, w') -> bind m k w = k a w'.
Proof. intros H. unfold bind. now rewrite H. Qed.

Lemma bind_Err {A B} (m : M A) (k : A -> M B) (w w' : World) (msg : string) :
  m w = (Err msg, w') -> bind m k w = (Err msg, w').
Proof. intros H. unfold bind. now rewrite H. Qed.

Lemma try_Ok {A} (prefix : string) (m : M A) (w w' : World) (a : A) :
  m w = (Ok a, w') -> try prefix m w = (Ok a, w').
Proof. intros H. unfold try. now rewrite H. Qed.

Lemma try_Err {A} (prefix : string) (m : M A) (w w' : World) (msg : string) :
  m w = (Err msg, w') -> try prefix m w = (Err (prefix +:+ msg), w').
Proof. intros H. unfold try. now rewrite H. Qed.

Lemma ValidateOCI_manifestFetched (w w' : World) (resp : Response) :
  manifestFetched E ctx pkg w apiBaseURL namespace repo tag resp w' ->
  ValidateOCI E ctx pkg serverName w
  = validateManifestResponse E ctx apiBaseURL namespace repo tag serverName
      resp w'.
Proof.
  intros (Hres & Hparse & -> & req & w1 & Hreq & Hdo).
  unfold ValidateOCI.
  rewrite defaultRegistry_Identifier, defaultRegistry_Version, Hres, Hparse.
  rewrite (bind_Ok _ _ w w apiBaseURL eq_refl).
  rewrite (bind_Ok _ _ w w (namespace, repo) eq_refl). simpl fst; simpl snd.
  rewrite (bind_Ok _ _ _ _ _ Hreq).
  now rewrite (bind_Ok _ _ _ _ _ (try_Ok _ _ _ _ _ Hdo)).
Qed.

Lemma validateManifestResponse_OK (w : World) (resp : Response)
    (manifest : OCIManifest) :
  StatusCode resp = StatusOK ->
  decode_manifest E (Body resp) = Ok manifest ->
  validateManifestResponse E ctx apiBaseURL namespace repo tag serverName resp w
  = validateManifest E ctx apiBaseURL namespace repo tag serverName manifest w.
Proof.
  intros Hs Hd. unfold validateManifestResponse. rewrite Hs, Hd. reflexivity.
Qed.

Lemma ValidateOCI_manifestDecoded (w w' : World) (manifest : OCIManifest) :
  manifestDecoded E ctx pkg w apiBaseURL namespace repo tag manifest w' ->
  ValidateOCI E ctx pkg serverName w
  = validateManifest E ctx apiBaseURL namespace repo tag serverName manifest w'.
Proof.
  intros (resp & Hf & Hs & Hd).
  rewrite (ValidateOCI_manifestFetched _ _ _ Hf).
  now apply validateManifestResponse_OK.
Qed.

Lemma ValidateOCI_digestResolved (w w' : World) (digest : string) :
  digestResolved E ctx pkg w apiBaseURL namespace repo tag digest w' ->
  ValidateOCI E ctx pkg serverName w
  = validateConfigDigest E ctx apiBaseURL namespace repo tag serverName
      digest w'.
Proof.
  intros (manifest & w1 & Hm & Hd).
  rewrite (ValidateOCI_manifestDecoded _ _ _ Hm). unfold validateManifest.
  destruct (Manifests manifest) as [|first rest].
  - destruct Hd as [-> ->]. reflexivity.
  - destruct Hd as (specific & Hs & ->).
    apply bind_Ok.
    now rewrite (bind_Ok _ _ _ _ _ (try_Ok _ _ _ _ _ Hs)).
Qed.

Lemma ValidateOCI_configFetched (w w' : World) (config : OCIImageConfig) :
  configFetched E ctx pkg w apiBaseURL namespace repo tag config w' ->
  ValidateOCI E ctx pkg serverName w
  = (checkServerName (Labels (ImageConfig config)) namespace repo tag
       serverName, w').
Proof.
  intros (digest & w1 & Hd & Hne & Hc).
  rewrite (ValidateOCI_digestResolved _ _ _ Hd). unfold validateConfigDigest.
  destruct (String.eqb_spec digest EmptyString) as [|_]; [congruence |].
  now rewrite (bind_Ok _ _ _ _ _ (try_Ok _ _ _ _ _ Hc)).
Qed.

End Pipeline.

(** ** The ownership verifier *)

Section Verifier.

Lemma mock_fetched (routes : list (string * Response))
    (manifests : list (string * OCIManifest))
    (configs : list (string * OCIImageConfig)) (resp : Response) :
  mock.assoc mock.topURL routes = Some resp ->
  manifestFetched (mock.env routes manifests configs) liveContext mock.pkg
    mock.world0 mock.base "example" "test-server" "1.0.0" resp
    (mock.after [mock.topRequest]).
Proof.
  intros H. split; [reflexivity |]. split; [reflexivity |].
  split; [reflexivity |]. exists mock.topRequest, mock.world0.
  split; [reflexivity |]. unfold clientDo. simpl transport.
  change (URL mock.topRequest) with mock.topURL. now rewrite H.
Qed.

Lemma mock_single_configFetched :
  configFetched mock.single liveContext mock.pkg mock.world0
    mock.base "example" "test-server" "1.0.0"
    (mock.labelled "com.example/test-server")
    (mock.after [mock.topRequest; mock.configRequest]).
Proof.
  exists "sha256:abc123", (mock.after [mock.topRequest]).
  split; [| split; [discriminate | reflexivity]].
  exists mock.concrete, (mock.after [mock.topRequest]).
  split; [| split; reflexivity].
  exists (mock.ok "manifest").
  split; [now apply mock_fetched | split; reflexivity].
Qed.

End Verifier.

(** C1. The label check at the end of [ValidateOCI], for every map of
    labels, claimed owner and image reference. Without the key
    [io.modelcontextprotocol.server.name] it fails with the "missing
    required annotation" message, which holds the line
    [LABEL io.modelcontextprotocol.server.name="owner"] made of the claimed
    owner; with a value other than the claimed owner it fails with the
    "ownership validation failed" message, which quotes the expected value
    and then the actual one; with the claimed owner itself it succeeds. A
    run of [ValidateOCI] that has fetched the image config returns what
    this check says of the config's labels. *)
Theorem ownership_check (labels : gmap string string)
    (namespace repo tag serverName : string) :
  match labels !! serverNameLabel with
  | None =>
      exists msg,
        checkServerName labels namespace repo tag serverName = Err msg /\
        Contains msg "missing required annotation" = true /\
        Contains msg ("LABEL io.modelcontextprotocol.server.name="
                      +:+ String dquote serverName
                      +:+ String dquote EmptyString) = true
  | Some actual =>
      if decide (actual = serverName) then
        checkServerName labels namespace repo tag serverName = Ok tt
      else
        exists msg,
          checkServerName labels namespace repo tag serverName = Err msg /\
          Contains msg "ownership validation failed" = true /\
          Contains msg ("= '" +:+ serverName +:+ "', got '" +:+ actual +:+ "'")
          = true
  end /\
  forall (E : Env) (ctx : Context) (pkg : Package) (w w' : World)
         (apiBaseURL : string) (config : OCIImageConfig),
    configFetched E ctx pkg w apiBaseURL namespace repo tag config w' ->
    ValidateOCI E ctx pkg serverName w
    = (checkServerName (Labels (ImageConfig config)) namespace repo tag
         serverName, w').
Proof.
  split.
  - unfold checkServerName. destruct (labels !! serverNameLabel) as [actual|].
    + case_decide as Heq.
      * subst actual. now rewrite String.eqb_refl.
      * destruct (String.eqb_spec actual serverName) as [|_]; [congruence |].
        eexists. split; [reflexivity |]. split.
        -- apply (Contains_middle "OCI image " "ownership validation failed").
        -- change "OCI image ownership validation failed. Expected annotation 'io.modelcontextprotocol.server.name' = '"
             with ("OCI image ownership validation failed. Expected annotation 'io.modelcontextprotocol.server.name' "
                   +:+ "= '").
           rewrite append_assoc.
           rewrite <- (append_assoc "= '"), <- (append_assoc _ "', got '"),
             <- (append_assoc _ actual).
           apply Contains_end.
    + eexists. split; [reflexivity |]. split.
      * apply Contains_skip, Contains_skip.
        apply (Contains_middle " is " "missing required annotation").
      * change (" is missing required annotation. Add this to your Dockerfile: LABEL io.modelcontextprotocol.server.name="
                +:+ String dquote serverName +:+ String dquote EmptyString)
          with ((" is missing required annotation. Add this to your Dockerfile: "
                +:+ "LABEL io.modelcontextprotocol.server.name=")
                +:+ String dquote serverName +:+ String dquote EmptyString).
        rewrite append_assoc. do 3 apply Contains_skip.
        apply Contains_HasPrefix.
        rewrite <- (append_empty_r (_ +:+ _ +:+ String dquote EmptyString)) at 1.
        apply HasPrefix_append.
  - intros E ctx pkg w w' apiBaseURL config H.
    now apply ValidateOCI_configFetched with (apiBaseURL := apiBaseURL).
Qed.

(** The three outcomes at the labelled image of the registry of the
    examples, and the run that reaches the check. *)
Lemma ownership_check_witness :
  ValidateOCI mock.single liveContext mock.pkg "com.example/test-server"
    mock.world0
  = (Ok tt, mock.after [mock.topRequest; mock.configRequest]).
Proof.
  exact (proj2 (ownership_check {[ serverNameLabel := "com.example/test-server" ]}
                  "example" "test-server" "1.0.0" "com.example/test-server")
           mock.single liveContext mock.pkg mock.world0 _ mock.base _
           mock_single_configFetched).
Defined.

(** ** The manifest resolver *)

(** C2. What [ValidateOCI] does with the status code of the answer to its
    first manifest request, in this order: 404 or 401 is the "not found"
    error, which names [namespace/repo:tag] and the code; 429 is success,
    with a warning logged and no further request made; any other code but
    200 is the "failed to fetch OCI manifest" error with the code; 200 has
    the body decoded, and a body that does not decode is the "failed to
    parse OCI manifest" error. *)
Theorem manifest_status_classification (E : Env) (ctx : Context)
    (pkg : Package) (serverName : string) (w w' : World)
    (apiBaseURL namespace repo tag : string) (resp : Response) :
  manifestFetched E ctx pkg w apiBaseURL namespace repo tag resp w' ->
  if decide (StatusCode resp = 404 \/ StatusCode resp = 401)%Z then
    ValidateOCI E ctx pkg serverName w
    = (Err ("OCI image '" +:+ namespace +:+ "/" +:+ repo +:+ ":" +:+ tag
            +:+ "' not found (status: " +:+ fmtInt (StatusCode resp) +:+ ")"),
       w')
  else if decide (StatusCode resp = 429)%Z then
    ValidateOCI E ctx pkg serverName w
    = (Ok tt,
       {| sent := sent w';
          logged := logged w' ++
            ["Warning: Rate limited when accessing OCI image '"
             +:+ namespace +:+ "/" +:+ repo +:+ ":" +:+ tag
             +:+ "'. Skipping validation."] |})
  else if decide (StatusCode resp <> 200)%Z then
    ValidateOCI E ctx pkg serverName w
    = (Err ("failed to fetch OCI manifest (status: "
            +:+ fmtInt (StatusCode resp) +:+ ")"), w')
  else
    match decode_manifest E (Body resp) with
    | Err msg =>
        ValidateOCI E ctx pkg serverName w
        = (Err ("failed to parse OCI manifest: " +:+ msg), w')
    | Ok manifest =>
        ValidateOCI E ctx pkg serverName w
        = validateManifest E ctx apiBaseURL namespace repo tag serverName
            manifest w'
    end.
Proof.
  intros H. rewrite (ValidateOCI_manifestFetched _ _ _ _ _ _ _ _ _ _ _ H).
  unfold validateManifestResponse, quotedRef.
  unfold StatusNotFound, StatusUnauthorized, StatusTooManyRequests, StatusOK.
  destruct (Z.eqb_spec (StatusCode resp) 404) as [H404|H404];
    [rewrite decide_True by tauto; simpl orb; cbv iota;
     unfold fail; now rewrite !append_assoc |].
  destruct (Z.eqb_spec (StatusCode resp) 401) as [H401|H401];
    [rewrite decide_True by tauto; simpl orb; cbv iota;
     unfold fail; now rewrite !append_assoc |].
  rewrite decide_False by tauto. simpl orb. cbv iota.
  destruct (Z.eqb_spec (StatusCode resp) 429) as [H429|H429].
  { rewrite decide_True by assumption. unfold bind, logPrintf, ret.
    now rewrite !append_assoc. }
  rewrite decide_False by assumption.
  destruct (Z.eqb_spec (StatusCode resp) 200) as [H200|H200].
  - rewrite decide_False by tauto. simpl negb. cbv iota.
    unfold bind, try, lift.
    now destruct (decode_manifest E (Body resp)).
  - now rewrite decide_True by assumption.
Qed.

(** A rate-limited first fetch: success, one request made, one line
    logged. *)
Lemma manifest_status_classification_witness :
  ValidateOCI (mock.answering 429) liveContext mock.pkg
    "com.example/test-server" mock.world0
  = (Ok tt,
     {| sent := [mock.topRequest];
        logged := ["Warning: Rate limited when accessing OCI image 'example/test-server:1.0.0'. Skipping validation."] |}).
Proof.
  exact (manifest_status_classification (mock.answering 429) liveContext
           mock.pkg "com.example/test-server" mock.world0 _
           mock.base "example" "test-server" "1.0.0" (mock.status 429)
           (mock_fetched [(mock.topURL, mock.status 429)] [] []
              (mock.status 429) eq_refl)).
Defined.

Section LaterFetches.

Context (E : Env) (ctx : Context).
Context (apiBaseURL namespace repo : string).

Lemma getSpecificManifest_status (digest : string) (w w1 w2 : World)
    (req : Request) (resp : Response) :
  specificManifestRequest E ctx apiBaseURL namespace repo digest w = (Ok req, w1) ->
  clientDo E req w1 = (Ok resp, w2) ->
  StatusCode resp <> StatusOK ->
  getSpecificManifest E ctx apiBaseURL namespace repo digest w
  = (Err ("specific manifest not found (status: "
          +:+ fmtInt (StatusCode resp) +:+ ")"), w2).
Proof.
  intros Hreq Hdo Hs. unfold getSpecificManifest.
  rewrite (bind_Ok _ _ _ _ _ Hreq).
  rewrite (bind_Ok _ _ _ _ _ (try_Ok _ _ _ _ _ Hdo)).
  now destruct (Z.eqb_spec (StatusCode resp) StatusOK).
Qed.

Lemma getImageConfig_status (digest : string) (w w1 w2 : World)
    (req : Request) (resp : Response) :
  imageConfigRequest E ctx apiBaseURL namespace repo digest w = (Ok req, w1) ->
  clientDo E req w1 = (Ok resp, w2) ->
  StatusCode resp <> StatusOK ->
  getImageConfig E ctx apiBaseURL namespace repo digest w
  = (Err ("image config not found (status: "
          +:+ fmtInt (StatusCode resp) +:+ ")"), w2).
Proof.
  intros Hreq Hdo Hs. unfold getImageConfig.
  rewrite (bind_Ok _ _ _ _ _ Hreq).
  rewrite (bind_Ok _ _ _ _ _ (try_Ok _ _ _ _ _ Hdo)).
  now destruct (Z.eqb_spec (StatusCode resp) StatusOK).
Qed.

End LaterFetches.

Section MockRuns.

Lemma mock_decoded (routes : list (string * Response))
    (manifests : list (string * OCIManifest))
    (configs : list (string * OCIImageConfig))
    (body : string) (manifest : OCIManifest) :
  mock.assoc mock.topURL routes = Some (mock.ok body) ->
  mock.assoc body manifests = Some manifest ->
  manifestDecoded (mock.env routes manifests configs) liveContext mock.pkg
    mock.world0 mock.base "example" "test-server" "1.0.0" manifest
    (mock.after [mock.topRequest]).
Proof.
  intros Hr Hm. exists (mock.ok body).
  split; [now apply mock_fetched |]. split; [reflexivity |].
  simpl. unfold mock.decodeWith. now rewrite Hm.
Qed.

End MockRuns.

(** C10. The two later fetches do not share the leniency of the first.
    When the request for the manifest of a platform is answered with any
    status code other than 200 (429, 404 and 401 among them),
    [getSpecificManifest] returns the "specific manifest not found" error
    with the code, and a run of [ValidateOCI] that made the request for the
    first entry of its manifest list fails with that error; when the
    request for the config blob is answered so, [getImageConfig] returns
    the "image config not found" error with the code, and the run of
    [ValidateOCI] fails with it. *)
Theorem later_fetches_fail (E : Env) (ctx : Context) (serverName : string)
    (apiBaseURL namespace repo tag digest : string) (w w1 w2 : World)
    (req : Request) (resp : Response) :
  clientDo E req w1 = (Ok resp, w2) ->
  StatusCode resp <> 200%Z ->
  (specificManifestRequest E ctx apiBaseURL namespace repo digest w
   = (Ok req, w1) ->
   getSpecificManifest E ctx apiBaseURL namespace repo digest w
   = (Err ("specific manifest not found (status: "
           +:+ fmtInt (StatusCode resp) +:+ ")"), w2) /\
   forall (pkg : Package) (w0 : World) (manifest : OCIManifest)
          (first : Descriptor) (rest : list Descriptor),
     manifestDecoded E ctx pkg w0 apiBaseURL namespace repo tag manifest w ->
     Manifests manifest = first :: rest ->
     digest = Digest first ->
     ValidateOCI E ctx pkg serverName w0
     = (Err ("failed to get specific manifest: specific manifest not found (status: "
             +:+ fmtInt (StatusCode resp) +:+ ")"), w2)) /\
  (imageConfigRequest E ctx apiBaseURL namespace repo digest w
   = (Ok req, w1) ->
   getImageConfig E ctx apiBaseURL namespace repo digest w
   = (Err ("image config not found (status: "
           +:+ fmtInt (StatusCode resp) +:+ ")"), w2) /\
   forall (pkg : Package) (w0 : World),
     digestResolved E ctx pkg w0 apiBaseURL namespace repo tag digest w ->
     digest <> EmptyString ->
     ValidateOCI E ctx pkg serverName w0
     = (Err ("failed to get image config: image config not found (status: "
             +:+ fmtInt (StatusCode resp) +:+ ")"), w2)).
Proof.
  intros Hdo Hs. split; intros Hreq.
  - pose proof (getSpecificManifest_status _ _ _ _ _ _ _ _ _ _ _
                  Hreq Hdo Hs) as Hget.
    split; [exact Hget |]. intros pkg w0 manifest first rest Hm Hl ->.
    rewrite (ValidateOCI_manifestDecoded _ _ _ _ _ _ _ _ _ _ _ Hm).
    unfold validateManifest. rewrite Hl.
    apply bind_Err.
    rewrite (bind_Err _ _ _ _ _ (try_Err _ _ _ _ _ Hget)).
    reflexivity.
  - pose proof (getImageConfig_status _ _ _ _ _ _ _ _ _ _ _
                  Hreq Hdo Hs) as Hget.
    split; [exact Hget |]. intros pkg w0 Hd Hne.
    rewrite (ValidateOCI_digestResolved _ _ _ _ _ _ _ _ _ _ _ Hd).
    unfold validateConfigDigest.
    destruct (String.eqb_spec digest EmptyString) as [|_]; [congruence |].
    rewrite (bind_Err _ _ _ _ _ (try_Err _ _ _ _ _ Hget)).
    reflexivity.
Qed.

(** A rate limit on the manifest of the first platform makes validation
    fail. *)
Lemma later_fetches_fail_witness :
  ValidateOCI mock.limitedPlatform liveContext mock.pkg
    "com.example/test-server" mock.world0
  = (Err "failed to get specific manifest: specific manifest not found (status: 429)",
     mock.after [mock.topRequest; mock.amd64Request]).
Proof.
  refine (proj2 (proj1 (later_fetches_fail mock.limitedPlatform liveContext
                   "com.example/test-server" mock.base "example" "test-server"
                   "1.0.0" "sha256:amd64" (mock.after [mock.topRequest])
                   (mock.after [mock.topRequest])
                   (mock.after [mock.topRequest; mock.amd64Request])
                   mock.amd64Request (mock.status 429) eq_refl _) eq_refl)
            mock.pkg mock.world0 mock.index _ _ _ eq_refl eq_refl).
  - discriminate.
  - now apply (mock_decoded _ _ _ "index").
Defined.

(** ** The requests a run makes *)

Section Traces.

Context (E : Env) (ctx : Context).
Context (apiBaseURL namespace repo : string).

(** [getDockerIoAuthToken] sends the token request, unless it cannot
    create it, and returns the token of a decodable answer with status
    200. *)
Lemma getDockerIoAuthToken_trace (w w' : World) (r : Result string) :
  getDockerIoAuthToken E ctx namespace repo w = (r, w') ->
  logged w' = logged w /\
  ((sent w' = sent w /\ isOk r = false) \/
   (sent w' = sent w ++ [tokenRequest namespace repo] /\
    forall token, r = Ok token ->
      exists resp auth,
        transport E (sent w) (tokenRequest namespace repo) = inr resp /\
        StatusCode resp = StatusOK /\
        decode_auth E (Body resp) = Ok auth /\
        token = Token auth)).
Proof.
  unfold getDockerIoAuthToken, NewRequestWithContext.
  unfold bind, try, lift, ret, fail, clientDo, wrapErr.
  destruct ctx; [intros [= <- <-]; auto |].
  destruct (url_error E (authURL namespace repo));
    [intros [= <- <-]; auto |].
  fold (tokenRequest namespace repo).
  destruct (transport E (sent w) (tokenRequest namespace repo))
    as [msg|resp] eqn:Ht.
  - intros [= <- <-]. split; [reflexivity |]. right.
    split; [reflexivity | discriminate].
  - destruct (Z.eqb_spec (StatusCode resp) StatusOK) as [Hs|Hs]; simpl.
    + destruct (decode_auth E (Body resp)) as [auth|msg] eqn:Hd;
        intros [= <- <-]; (split; [reflexivity |]); right;
        (split; [reflexivity |]); [| discriminate].
      intros token [= <-]. now exists resp, auth.
    + intros [= <- <-]. split; [reflexivity |]. right.
      split; [reflexivity | discriminate].
Qed.

Lemma setDockerBearer_trace (req0 : Request) (w w' : World)
    (r : Result Request) :
  setDockerBearer E ctx namespace repo req0 w = (r, w') ->
  logged w' = logged w /\
  ((sent w' = sent w /\ isOk r = false) \/
   (sent w' = sent w ++ [tokenRequest namespace repo] /\
    forall req, r = Ok req ->
      exists resp auth,
        transport E (sent w) (tokenRequest namespace repo) = inr resp /\
        StatusCode resp = StatusOK /\
        decode_auth E (Body resp) = Ok auth /\
        req = HeaderSet "Authorization" ("Bearer " +:+ Token auth) req0)).
Proof.
  unfold setDockerBearer, bind, try, ret.
  destruct (getDockerIoAuthToken E ctx namespace repo w) as [[token|msg] w1]
    eqn:Ht; apply getDockerIoAuthToken_trace in Ht as [Hl Ht];
    simpl; intros [= <- <-]; (split; [exact Hl |]).
  - destruct Ht as [[_ [=]] | [Hs Ht]]. right. split; [exact Hs |].
    intros req [= <-]. destruct (Ht token eq_refl) as (resp & auth & ? & ? & ? & ->).
    now exists resp, auth.
  - destruct Ht as [[Hs _] | [Hs _]]; [left | right]; split; auto; discriminate.
Qed.

(** The [switch] of [ValidateOCI] does what the [if] of the two other
    fetches does. *)
Lemma authenticate_eq (pkg : Package) (req : Request) :
  authenticate E ctx pkg apiBaseURL namespace repo req
  = if String.eqb apiBaseURL dockerIoAPIBaseURL
    then setDockerBearer E ctx namespace repo req
    else ret req.
Proof.
  unfold authenticate.
  repeat match goal with
         | |- context [if ?b then _ else _] => destruct b
         end; reflexivity.
Qed.

Lemma Header_bearer (agent accept bearer : string) (req : Request) :
  Header (HeaderSet "User-Agent" agent
            (HeaderSet "Accept" accept
               (HeaderSet "Authorization" bearer req))) !! "Authorization"
  = Some bearer.
Proof.
  unfold HeaderSet; simpl.
  rewrite lookup_insert_ne by discriminate.
  rewrite lookup_insert_ne by discriminate.
  apply lookup_insert_eq.
Qed.

Lemma Header_anonymous (agent accept method url : string) :
  anonymous (HeaderSet "User-Agent" agent
               (HeaderSet "Accept" accept
                  {| Method := method; URL := url; Header := ∅ |})).
Proof.
  unfold anonymous, HeaderSet; simpl.
  rewrite lookup_insert_ne by discriminate.
  rewrite lookup_insert_ne by discriminate.
  apply lookup_empty.
Qed.

Lemma NewRequestWithContext_Ok (method url : string) (req : Request) :
  NewRequestWithContext E ctx method url = Ok req ->
  req = {| Method := method; URL := url; Header := ∅ |}.
Proof.
  unfold NewRequestWithContext. destruct ctx; [discriminate |].
  destruct (url_error E url); [discriminate |]. now intros [= <-].
Qed.

(** The shape the three request-building blocks share. *)
Lemma builder_prepares (prefix url accept : string) :
  prepares E apiBaseURL namespace repo url
    (do req <- try prefix (lift (NewRequestWithContext E ctx MethodGet url));
     do req <- (if String.eqb apiBaseURL dockerIoAPIBaseURL
                then setDockerBearer E ctx namespace repo req
                else ret req);
     ret (HeaderSet "User-Agent" "MCP-Registry-Validator/1.0"
            (HeaderSet "Accept" accept req))).
Proof.
  intros w w' r.
  unfold bind at 1. unfold try at 1. unfold lift, wrapErr.
  destruct (NewRequestWithContext E ctx MethodGet url) as [req0|msg] eqn:Hnew;
    [| intros [= <- <-]; split; [reflexivity |]; left;
       split; [reflexivity | discriminate]].
  apply NewRequestWithContext_Ok in Hnew as ->.
  destruct (String.eqb_spec apiBaseURL dockerIoAPIBaseURL) as [Hapi|Hapi].
  - unfold bind, ret.
    destruct (setDockerBearer _ _ _ _ _ w) as [[req|msg] w1] eqn:Hb;
      apply setDockerBearer_trace in Hb as [Hl Hb];
      intros [= <- <-]; (split; [exact Hl |]).
    + destruct Hb as [[_ [=]] | [Hs Hb]]. right. split; [exact Hapi |].
      split; [exact Hs |]. intros req' [= <-].
      destruct (Hb req eq_refl) as (resp & auth & ? & ? & ? & ->).
      exists resp, auth. do 3 (split; [assumption |]).
      split; [apply Header_bearer | reflexivity].
    + destruct Hb as [[Hs _] | [Hs _]]; [left | right]; repeat split; auto;
        discriminate.
  - unfold bind, ret. intros [= <- <-]. split; [reflexivity |]. left.
    split; [reflexivity |]. intros req [= <-].
    split; [exact Hapi |]. split; [apply Header_anonymous | reflexivity].
Qed.

Lemma specificManifestRequest_prepares (digest : string) :
  prepares E apiBaseURL namespace repo
    (manifestURL apiBaseURL namespace repo digest)
    (specificManifestRequest E ctx apiBaseURL namespace repo digest).
Proof. apply builder_prepares. Qed.

Lemma imageConfigRequest_prepares (digest : string) :
  prepares E apiBaseURL namespace repo
    (blobURL apiBaseURL namespace repo digest)
    (imageConfigRequest E ctx apiBaseURL namespace repo digest).
Proof. apply builder_prepares. Qed.

Lemma manifestRequest_prepares (pkg : Package) (tag : string) :
  prepares E apiBaseURL namespace repo
    (manifestURL apiBaseURL namespace repo tag)
    (manifestRequest E ctx pkg apiBaseURL namespace repo tag).
Proof.
  intros w w' r H.
  apply (builder_prepares "failed to create manifest request: " _
           "application/vnd.docker.distribution.manifest.v2+json,application/vnd.oci.image.manifest.v1+json").
  rewrite <- H. unfold manifestRequest, bind.
  destruct (try _ _ w) as [[req|msg] w1]; [| reflexivity].
  now rewrite authenticate_eq.
Qed.

(** A prepared request, sent. *)
Lemma prepared_fetch (builder : M Request) (url : string)
    (w w1 : World) (r : Result Request) :
  prepares E apiBaseURL namespace repo url builder ->
  builder w = (r, w1) ->
  logged w1 = logged w /\
  match r with
  | Err _ =>
      exists reqs,
        sent w1 = sent w ++ reqs /\
        fetchTrace E apiBaseURL namespace repo url (sent w) false reqs
  | Ok req =>
      forall (r' : Result Response) (w2 : World),
        clientDo E req w1 = (r', w2) ->
        logged w2 = logged w /\
        exists reqs,
          sent w2 = sent w ++ reqs /\
          fetchTrace E apiBaseURL namespace repo url (sent w) true reqs
  end.
Proof.
  intros Hp Hb. destruct (Hp _ _ _ Hb) as [Hl Hs]. split; [exact Hl |].
  destruct r as [req|msg].
  - intros r' w2 Hdo.
    assert (Hw2 : sent w2 = sent w1 ++ [req] /\ logged w2 = logged w1).
    { unfold clientDo in Hdo.
      destruct (transport E (sent w1) req); injection Hdo as <- <-; auto. }
    destruct Hw2 as [Hs2 Hl2]. split; [congruence |].
    destruct Hs as [[Hs Hreq] | (Hapi & Hs & Hreq)].
    + destruct (Hreq req eq_refl) as (Hapi & Hanon & Hurl).
      exists [req]. split; [congruence |]. now constructor.
    + destruct (Hreq req eq_refl) as (resp & auth & Ht & Hst & Hd & Hh & Hurl).
      exists [tokenRequest namespace repo; req]. split.
      * rewrite Hs2, Hs, <- app_assoc. reflexivity.
      * now apply (fetch_with_token _ _ _ _ _ _ resp auth).
  - destruct Hs as [[Hs _] | (Hapi & Hs & _)].
    + exists []. split; [now rewrite app_nil_r | constructor].
    + exists [tokenRequest namespace repo]. split; [exact Hs |].
      now constructor.
Qed.

(** [getSpecificManifest] is one fetch of the manifest at [digest]. *)
Lemma getSpecificManifest_trace (digest : string) (w w' : World)
    (r : Result OCIManifest) :
  getSpecificManifest E ctx apiBaseURL namespace repo digest w = (r, w') ->
  exists sent_ reqs,
    sent w' = sent w ++ reqs /\
    fetchTrace E apiBaseURL namespace repo
      (manifestURL apiBaseURL namespace repo digest) (sent w) sent_ reqs /\
    (isOk r = true -> sent_ = true).
Proof.
  unfold getSpecificManifest. unfold bind at 1.
  destruct (specificManifestRequest _ _ _ _ _ _ w) as [[req|msg] w1] eqn:Hb;
    apply (prepared_fetch _ _ _ _ _ (specificManifestRequest_prepares digest))
      in Hb as [_ Hb].
  - unfold bind, try.
    destruct (clientDo E req w1) as [r' w2] eqn:Hdo.
    destruct (Hb _ _ eq_refl) as (_ & reqs & Hs & Ht). intros H.
    exists true, reqs. split; [| split; [exact Ht | reflexivity]].
    rewrite <- Hs. destruct r' as [resp|msg]; simpl in H.
    + destruct (negb _); [now injection H as <- <- |].
      unfold lift in H. now injection H as <- <-.
    + now injection H as <- <-.
  - intros [= <- <-]. destruct Hb as (reqs & Hs & Ht).
    exists false, reqs. split; [exact Hs |]. split; [exact Ht | discriminate].
Qed.

(** [getImageConfig] is one fetch of the blob at [digest]. *)
Lemma getImageConfig_trace (digest : string) (w w' : World)
    (r : Result OCIImageConfig) :
  getImageConfig E ctx apiBaseURL namespace repo digest w = (r, w') ->
  exists sent_ reqs,
    sent w' = sent w ++ reqs /\
    fetchTrace E apiBaseURL namespace repo
      (blobURL apiBaseURL namespace repo digest) (sent w) sent_ reqs /\
    (isOk r = true -> sent_ = true).
Proof.
  unfold getImageConfig. unfold bind at 1.
  destruct (imageConfigRequest _ _ _ _ _ _ w) as [[req|msg] w1] eqn:Hb;
    apply (prepared_fetch _ _ _ _ _ (imageConfigRequest_prepares digest))
      in Hb as [_ Hb].
  - unfold bind, try.
    destruct (clientDo E req w1) as [r' w2] eqn:Hdo.
    destruct (Hb _ _ eq_refl) as (_ & reqs & Hs & Ht). intros H.
    exists true, reqs. split; [| split; [exact Ht | reflexivity]].
    rewrite <- Hs. destruct r' as [resp|msg]; simpl in H.
    + destruct (negb _); [now injection H as <- <- |].
      unfold lift in H. now injection H as <- <-.
    + now injection H as <- <-.
  - intros [= <- <-]. destruct Hb as (reqs & Hs & Ht).
    exists false, reqs. split; [exact Hs |]. split; [exact Ht | discriminate].
Qed.

Lemma runTrace_single (url : string) (history : list Request)
    (sent_ : bool) (reqs : list Request) :
  fetchTrace E apiBaseURL namespace repo url history sent_ reqs ->
  runTrace E apiBaseURL namespace repo history reqs.
Proof.
  intros H. rewrite <- (app_nil_r reqs).
  eapply run_fetch; [exact H | reflexivity | constructor].
Qed.

Lemma validateConfigDigest_trace (tag serverName digest : string)
    (w w' : World) (r : Result unit) :
  validateConfigDigest E ctx apiBaseURL namespace repo tag serverName digest w
  = (r, w') ->
  exists reqs,
    sent w' = sent w ++ reqs /\
    runTrace E apiBaseURL namespace repo (sent w) reqs.
Proof.
  unfold validateConfigDigest. destruct (String.eqb digest EmptyString).
  - intros [= <- <-]. exists []. split; [now rewrite app_nil_r | constructor].
  - unfold bind, try, lift.
    destruct (getImageConfig _ _ _ _ _ _ w) as [r1 w1] eqn:Hg.
    apply getImageConfig_trace in Hg as (sent_ & reqs & Hs & Ht & _).
    intros H. exists reqs. split; [| now apply runTrace_single in Ht].
    rewrite <- Hs. destruct r1; simpl in H; now injection H as <- <-.
Qed.

Lemma validateManifest_trace (tag serverName : string)
    (manifest : OCIManifest) (w w' : World) (r : Result unit) :
  validateManifest E ctx apiBaseURL namespace repo tag serverName manifest w
  = (r, w') ->
  exists reqs,
    sent w' = sent w ++ reqs /\
    runTrace E apiBaseURL namespace repo (sent w) reqs.
Proof.
  unfold validateManifest. destruct (Manifests manifest) as [|first rest].
  - unfold bind at 1. unfold ret at 1. apply validateConfigDigest_trace.
  - unfold bind at 1. unfold bind at 1. unfold try.
    destruct (getSpecificManifest _ _ _ _ _ _ w) as [r1 w1] eqn:Hg.
    apply getSpecificManifest_trace in Hg as (sent_ & reqs & Hs & Ht & Hok).
    destruct r1 as [specific|msg]; simpl.
    + intros H. apply validateConfigDigest_trace in H as (rest' & Hs' & Hr).
      exists (reqs ++ rest'). split; [now rewrite Hs', Hs, app_assoc |].
      eapply run_fetch; [exact Ht | | now rewrite <- Hs].
      rewrite Hok by reflexivity. discriminate.
    + intros [= <- <-]. exists reqs.
      split; [exact Hs | now apply runTrace_single in Ht].
Qed.

Lemma validateManifestResponse_trace (tag serverName : string)
    (resp : Response) (w w' : World) (r : Result unit) :
  validateManifestResponse E ctx apiBaseURL namespace repo tag serverName resp w
  = (r, w') ->
  exists reqs,
    sent w' = sent w ++ reqs /\
    runTrace E apiBaseURL namespace repo (sent w) reqs.
Proof.
  assert (Hnone : forall w0 : World,
             exists reqs, sent w0 = sent w0 ++ reqs /\
               runTrace E apiBaseURL namespace repo (sent w0) reqs).
  { intros w0. exists []. split; [now rewrite app_nil_r | constructor]. }
  unfold validateManifestResponse.
  destruct (_ || _); [intros [= <- <-]; apply Hnone |].
  destruct (_ =? _)%Z; [intros [= <- <-]; apply (Hnone (Build_World _ _)) |].
  destruct (negb _); [intros [= <- <-]; apply Hnone |].
  unfold bind at 1. unfold try, lift.
  destruct (decode_manifest E (Body resp)) as [manifest|msg]; simpl.
  - apply validateManifest_trace.
  - intros [= <- <-]. apply Hnone.
Qed.

(** The requests of a whole run. *)
Lemma ValidateOCI_trace (pkg : Package) (serverName : string) (w : World) :
  resolveAPIBaseURL (RegistryBaseURL (defaultRegistry pkg)) = Ok apiBaseURL ->
  parseImageReference (Identifier pkg) = Ok (namespace, repo) ->
  exists reqs,
    sent (snd (ValidateOCI E ctx pkg serverName w)) = sent w ++ reqs /\
    runTrace E apiBaseURL namespace repo (sent w) reqs.
Proof.
  intros Hres Hparse. unfold ValidateOCI.
  rewrite defaultRegistry_Identifier, Hres, Hparse.
  rewrite (bind_Ok _ _ w w apiBaseURL eq_refl).
  rewrite (bind_Ok _ _ w w (namespace, repo) eq_refl). simpl fst; simpl snd.
  unfold bind at 1.
  destruct (manifestRequest _ _ _ _ _ _ _ w) as [[req|msg] w1] eqn:Hb;
    apply (prepared_fetch _ _ _ _ _ (manifestRequest_prepares _ _))
      in Hb as [_ Hb].
  - unfold bind, try.
    destruct (clientDo E req w1) as [r' w2] eqn:Hdo.
    destruct (Hb _ _ eq_refl) as (_ & reqs & Hs & Ht).
    destruct r' as [resp|msg]; simpl.
    + destruct (validateManifestResponse _ _ _ _ _ _ _ resp w2) as [r w']
        eqn:Hv.
      apply validateManifestResponse_trace in Hv as (rest & Hs' & Hr).
      exists (reqs ++ rest). simpl. split; [now rewrite Hs', Hs, app_assoc |].
      eapply run_fetch; [exact Ht | discriminate | now rewrite <- Hs].
    + exists reqs. split; [exact Hs | now apply runTrace_single in Ht].
  - destruct Hb as (reqs & Hs & Ht). exists reqs.
    split; [exact Hs | now apply runTrace_single in Ht].
Qed.

(** Against Docker Hub the requests of a run are handshakes. *)
Lemma runTrace_handshakes (history reqs : list Request) :
  apiBaseURL = dockerIoAPIBaseURL ->
  runTrace E apiBaseURL namespace repo history reqs ->
  handshakes E namespace repo history reqs.
Proof.
  intros Hapi H. induction H as [|history url sent_ reqs rest Ht Hlast Hr IH];
    [exact I |].
  destruct Ht as [| _ | resp auth fetch _ Htr Hst Hd Hh Hurl | fetch Hne _ _].
  - now rewrite (Hlast eq_refl).
  - now rewrite (Hlast eq_refl).
  - simpl. split; [reflexivity |]. split; [| exact IH].
    now exists resp, auth.
  - contradiction.
Qed.

(** Against any other registry no request carries credentials. *)
Lemma runTrace_anonymous (history reqs : list Request) :
  apiBaseURL <> dockerIoAPIBaseURL ->
  runTrace E apiBaseURL namespace repo history reqs ->
  Forall anonymous reqs.
Proof.
  intros Hapi H. induction H as [|history url sent_ reqs rest Ht Hlast Hr IH];
    [constructor |].
  destruct Ht as [| Hd | resp auth fetch Hd _ _ _ _ _ | fetch _ Hanon _];
    try contradiction.
  - exact IH.
  - now constructor.
Qed.

(** One fetch, told apart into token requests and fetches. *)
Lemma fetchTrace_split (url : string) (history : list Request)
    (sent_ : bool) (reqs : list Request) :
  fetchTrace E apiBaseURL namespace repo url history sent_ reqs ->
  exists tokens fetches,
    reqs = tokens ++ fetches /\
    Forall (eq (tokenRequest namespace repo)) tokens /\
    Forall (fun fetch => URL fetch = url) fetches /\
    length fetches = if sent_ then 1 else 0.
Proof.
  intros [| _ | resp auth fetch _ _ _ _ _ Hurl | fetch _ _ Hurl].
  - exists [], []. repeat split; constructor.
  - exists [tokenRequest namespace repo], []. repeat split; repeat constructor.
  - exists [tokenRequest namespace repo], [fetch].
    repeat split; repeat constructor. exact Hurl.
  - exists [], [fetch]. repeat split; repeat constructor. exact Hurl.
Qed.

End Traces.

(** C3. From a decoded top-level manifest on. With an empty list of
    platform entries [ValidateOCI] goes on with the manifest's own config
    digest. With a non-empty list it calls [getSpecificManifest] once, on
    the digest of the first entry: the requests this makes are token
    requests and at most one fetch, of the manifest at that digest, exactly
    one when the call succeeds; it goes on with the config digest of the
    manifest returned, or fails with that call's error. Going on with an
    empty digest is the "unable to determine image config digest" error,
    which names the reference. *)
Theorem config_digest_selection (E : Env) (ctx : Context) (pkg : Package)
    (serverName : string) (w w' : World)
    (apiBaseURL namespace repo tag : string) (manifest : OCIManifest) :
  manifestDecoded E ctx pkg w apiBaseURL namespace repo tag manifest w' ->
  match Manifests manifest with
  | [] =>
      ValidateOCI E ctx pkg serverName w
      = validateConfigDigest E ctx apiBaseURL namespace repo tag serverName
          (Digest (Config manifest)) w'
  | first :: _ =>
      let (r, w'') :=
        getSpecificManifest E ctx apiBaseURL namespace repo (Digest first) w' in
      (exists tokens fetches,
         sent w'' = sent w' ++ tokens ++ fetches /\
         Forall (eq (tokenRequest namespace repo)) tokens /\
         Forall (fun fetch =>
                   URL fetch
                   = manifestURL apiBaseURL namespace repo (Digest first))
           fetches /\
         length fetches <= 1 /\
         (isOk r = true -> length fetches = 1)) /\
      match r with
      | Ok specific =>
          ValidateOCI E ctx pkg serverName w
          = validateConfigDigest E ctx apiBaseURL namespace repo tag
              serverName (Digest (Config specific)) w''
      | Err msg =>
          ValidateOCI E ctx pkg serverName w
          = (Err ("failed to get specific manifest: " +:+ msg), w'')
      end
  end /\
  forall w0 : World,
    validateConfigDigest E ctx apiBaseURL namespace repo tag serverName
      EmptyString w0
    = (Err ("unable to determine image config digest for '"
            +:+ namespace +:+ "/" +:+ repo +:+ ":" +:+ tag +:+ "'"), w0).
Proof.
  intros Hm. split.
  - rewrite (ValidateOCI_manifestDecoded _ _ _ _ _ _ _ _ _ _ _ Hm).
    unfold validateManifest. destruct (Manifests manifest) as [|first rest].
    + reflexivity.
    + destruct (getSpecificManifest _ _ _ _ _ _ w') as [r w''] eqn:Hg.
      split.
      * apply getSpecificManifest_trace in Hg as (sent_ & reqs & Hs & Ht & Hok).
        apply fetchTrace_split in Ht
          as (tokens & fetches & -> & Htok & Hfetch & Hlen).
        exists tokens, fetches. do 3 (split; [assumption |]).
        rewrite Hlen. split; [destruct sent_; lia |].
        intros H. now rewrite (Hok H).
      * destruct r as [specific|msg].
        -- apply bind_Ok.
           now rewrite (bind_Ok _ _ _ _ _ (try_Ok _ _ _ _ _ Hg)).
        -- apply bind_Err.
           now rewrite (bind_Err _ _ _ _ _ (try_Err _ _ _ _ _ Hg)).
  - intros w0. reflexivity.
Qed.

(** The index of the examples: one fetch of the manifest of its first
    platform, and on with the config digest found there. *)
Lemma config_digest_selection_witness :
  ValidateOCI mock.multi liveContext mock.pkg "com.example/test-server"
    mock.world0
  = validateConfigDigest mock.multi liveContext mock.base "example"
      "test-server" "1.0.0" "com.example/test-server" "sha256:abc123"
      (mock.after [mock.topRequest; mock.amd64Request]).
Proof.
  assert (H : manifestDecoded mock.multi liveContext mock.pkg mock.world0
                mock.base "example" "test-server" "1.0.0" mock.index
                (mock.after [mock.topRequest]))
    by now apply (mock_decoded _ _ _ "index").
  exact (proj2 (proj1 (config_digest_selection mock.multi liveContext mock.pkg
                         "com.example/test-server" _ _ _ _ _ _ _ H))).
Defined.

(** ** The authentication strategy *)

Section Authentication.

Lemma resolveAPIBaseURL_Ok (url apiBaseURL : string) :
  resolveAPIBaseURL url = Ok apiBaseURL ->
  supportedRegistries !! url = Some apiBaseURL \/ apiBaseURL = url.
Proof.
  unfold resolveAPIBaseURL.
  destruct (supportedRegistries !! url) as [api|]; [intros [= ->]; now left |].
  repeat match goal with
         | |- context [if ?b then _ else _] => destruct b
         end; intros [= ->]; now right.
Qed.

(** The keys of the table that stand for Docker Hub. *)
Lemma supportedRegistries_docker (url : string) :
  supportedRegistries !! url = Some dockerIoAPIBaseURL ->
  url = RegistryURLDocker \/ url = RegistryURLDockerHub.
Proof.
  intros H. apply elem_of_list_to_map_2 in H.
  repeat (apply elem_of_cons in H as [H|H];
          [apply pair_equal_spec in H as [Hkey Hvalue];
           first [now left | now right | cbv in Hvalue; discriminate Hvalue] |]).
  now apply elem_of_nil in H.
Qed.

Lemma docker_origin (pkg : Package) (apiBaseURL : string) :
  resolveAPIBaseURL (RegistryBaseURL (defaultRegistry pkg)) = Ok apiBaseURL ->
  apiBaseURL = dockerIoAPIBaseURL <->
  RegistryBaseURL pkg = EmptyString \/
  RegistryBaseURL pkg = RegistryURLDocker \/
  RegistryBaseURL pkg = RegistryURLDockerHub.
Proof.
  intros H. split.
  - intros ->. unfold defaultRegistry in H.
    destruct (String.eqb_spec (RegistryBaseURL pkg) EmptyString) as [|Hne];
      [now left | right].
    destruct (resolveAPIBaseURL_Ok _ _ H) as [Ht | Hu].
    + now apply supportedRegistries_docker.
    + rewrite <- Hu in H. discriminate H.
  - unfold defaultRegistry in H.
    intros [He | [He | He]]; rewrite He in H; simpl in H; rewrite ?He in H;
      vm_compute in H; now injection H as <-.
Qed.

End Authentication.



(** ** Rules of the judgements *)

Section Rules.

Context {A B : Type}.

Lemma bind_inv (m : M A) (k : A -> M B) (w w' : World) (r : Result B) :
  bind m k w = (r, w') ->
  (exists a w1, m w = (Ok a, w1) /\ k a w1 = (r, w')) \/
  (exists msg, m w = (Err msg, w') /\ r = Err msg).
Proof.
  unfold bind. destruct (m w) as [[a|msg] w1]; intros H.
  - left. now exists a, w1.
  - right. exists msg. now injection H as <- <-.
Qed.

Lemma try_inv (prefix : string) (m : M A) (w w' : World) (r : Result A) :
  try prefix m w = (r, w') ->
  exists r0, m w = (r0, w') /\ r = wrapErr prefix r0.
Proof.
  unfold try. destruct (m w) as [r0 w1]. intros [= <- <-]. now exists r0.
Qed.

Lemma errs_ret (R : string -> Prop) (a : A) : errs R (ret a).
Proof. intros w w' msg [=]. Qed.

Lemma errs_fail (R : string -> Prop) (msg : string) :
  R msg -> errs R (@fail A msg).
Proof. intros H w w' msg' [= <- _]. exact H. Qed.

Lemma errs_lift (R : string -> Prop) (r : Result A) :
  (forall msg, r = Err msg -> R msg) -> errs R (lift r).
Proof. intros H w w' msg [= -> _]. now apply H. Qed.

(** Whatever the errors of [m], those of [try prefix m] begin with
    [prefix]. *)
Lemma errs_try (R : string -> Prop) (prefix : string) (m : M A) :
  (forall msg, R (prefix +:+ msg)) -> errs R (try prefix m).
Proof.
  intros H w w' msg Hm. apply try_inv in Hm as (r0 & _ & Hr).
  destruct r0; [discriminate |]. injection Hr as ->. apply H.
Qed.

Lemma errs_bind (R : string -> Prop) (m : M A) (k : A -> M B) :
  errs R m -> (forall a, errs R (k a)) -> errs R (bind m k).
Proof.
  intros Hm Hk w w' msg H.
  apply bind_inv in H as [(a & w1 & _ & H) | (msg' & H & [= ->])].
  - exact (Hk a _ _ _ H).
  - exact (Hm _ _ _ H).
Qed.

Lemma quiet_ret (a : A) : quiet (ret a).
Proof. now intros w w' r [= _ <-]. Qed.

Lemma quiet_fail (msg : string) : quiet (@fail A msg).
Proof. now intros w w' r [= _ <-]. Qed.

Lemma quiet_lift (r : Result A) : quiet (lift r).
Proof. now intros w w' r' [= _ <-]. Qed.

Lemma quiet_try (prefix : string) (m : M A) : quiet m -> quiet (try prefix m).
Proof.
  intros Hm w w' r H. apply try_inv in H as (r0 & H & _). exact (Hm _ _ _ H).
Qed.

Lemma quiet_bind (m : M A) (k : A -> M B) :
  quiet m -> (forall a, quiet (k a)) -> quiet (bind m k).
Proof.
  intros Hm Hk w w' r H.
  apply bind_inv in H as [(a & w1 & H1 & H) | (msg & H & _)].
  - rewrite (Hk a _ _ _ H). exact (Hm _ _ _ H1).
  - exact (Hm _ _ _ H).
Qed.

Lemma sends_ret (P : Request -> Prop) (Q : A -> Prop) (a : A) :
  Q a -> sends 0 P Q (ret a).
Proof.
  intros H w w' r [= <- <-]. split; [now intros a' [= <-] |].
  exists []. now rewrite app_nil_r.
Qed.

Lemma sends_fail (P : Request -> Prop) (Q : A -> Prop) (msg : string) :
  sends 0 P Q (fail msg).
Proof.
  intros w w' r [= <- <-]. split; [discriminate |].
  exists []. now rewrite app_nil_r.
Qed.

Lemma sends_lift (P : Request -> Prop) (Q : A -> Prop) (r : Result A) :
  (forall a, r = Ok a -> Q a) -> sends 0 P Q (lift r).
Proof.
  intros H w w' r' [= <- <-]. split; [exact H |].
  exists []. now rewrite app_nil_r.
Qed.

Lemma sends_try (n : nat) (P : Request -> Prop) (Q : A -> Prop)
    (prefix : string) (m : M A) :
  sends n P Q m -> sends n P Q (try prefix m).
Proof.
  intros Hm w w' r H. apply try_inv in H as (r0 & H & ->).
  destruct (Hm _ _ _ H) as [HQ Hs]. split; [| exact Hs].
  intros a Ha. destruct r0; [apply HQ; exact Ha | discriminate].
Qed.

Lemma sends_bind (n1 n2 : nat) (P : Request -> Prop) (Q1 : A -> Prop)
    (Q2 : B -> Prop) (m : M A) (k : A -> M B) :
  sends n1 P Q1 m -> (forall a, Q1 a -> sends n2 P Q2 (k a)) ->
  sends (n1 + n2) P Q2 (bind m k).
Proof.
  intros Hm Hk w w' r H.
  apply bind_inv in H as [(a & w1 & H1 & H) | (msg & H & ->)].
  - destruct (Hm _ _ _ H1) as [HQ (reqs1 & Hs1 & Hl1 & HP1)].
    destruct (Hk a (HQ a eq_refl) _ _ _ H) as [HQ2 (reqs2 & Hs2 & Hl2 & HP2)].
    split; [exact HQ2 |]. exists (reqs1 ++ reqs2).
    split; [now rewrite Hs2, Hs1, app_assoc |].
    split; [rewrite length_app; lia | now apply Forall_app].
  - destruct (Hm _ _ _ H) as [_ (reqs & Hs & Hl & HP)].
    split; [discriminate |]. exists reqs. split; [exact Hs |].
    split; [lia | exact HP].
Qed.

Lemma sends_weaken (n n' : nat) (P : Request -> Prop) (Q Q' : A -> Prop)
    (m : M A) :
  sends n P Q m -> n <= n' -> (forall a, Q a -> Q' a) -> sends n' P Q' m.
Proof.
  intros Hm Hn HQ w w' r H. destruct (Hm _ _ _ H) as [Hq (reqs & Hs & Hl & HP)].
  split; [intros a Ha; now apply HQ, Hq |].
  exists reqs. split; [exact Hs |]. split; [lia | exact HP].
Qed.

End Rules.

Section RulesOfRequests.

Context (E : Env).

Lemma quiet_clientDo (req : Request) : quiet (clientDo E req).
Proof.
  intros w w' r. unfold clientDo.
  destruct (transport E (sent w) req); now intros [= _ <-].
Qed.

Lemma sends_clientDo (P : Request -> Prop) (req : Request) :
  P req -> sends 1 P (fun _ => True) (clientDo E req).
Proof.
  intros H w w' r Hdo. split; [trivial |]. exists [req].
  unfold clientDo in Hdo.
  destruct (transport E (sent w) req); injection Hdo as <- <-;
    (split; [reflexivity |]); (split; [simpl; lia | now constructor]).
Qed.

End RulesOfRequests.

(** ** The errors of a run *)

Section Errors.

Context (E : Env) (ctx : Context).

Local Ltac stage :=
  unfold hasStagePrefix, stagePrefixes;
  repeat first
    [ apply Exists_cons_hd;
      match goal with
      | |- HasPrefix _ ?stage = true => apply (HasPrefix_append stage)
      end
    | apply Exists_cons_tl ].

Lemma resolveAPIBaseURL_Err (url msg : string) :
  resolveAPIBaseURL url = Err msg -> msg = unsupportedRegistryError url.
Proof.
  unfold resolveAPIBaseURL. destruct (supportedRegistries !! url); [discriminate |].
  repeat match goal with
         | |- context [if ?b then _ else _] => destruct b
         end; try discriminate.
  now intros [= <-].
Qed.

Lemma checkServerName_Err (labels : gmap string string)
    (namespace repo tag serverName msg : string) :
  checkServerName labels namespace repo tag serverName = Err msg ->
  hasStagePrefix msg.
Proof.
  unfold checkServerName. destruct (labels !! serverNameLabel) as [actual|].
  - destruct (negb _); [| discriminate]. intros [= <-]. stage.
  - intros [= <-]. stage.
Qed.

Lemma validateConfigDigest_errs
    (apiBaseURL namespace repo tag serverName digest : string) :
  errs hasStagePrefix
    (validateConfigDigest E ctx apiBaseURL namespace repo tag serverName digest).
Proof.
  unfold validateConfigDigest. destruct (String.eqb digest EmptyString).
  - apply errs_fail. stage.
  - apply errs_bind; [apply errs_try; intros msg; stage |].
    intros config. apply errs_lift. intros msg. apply checkServerName_Err.
Qed.

Lemma validateManifest_errs (apiBaseURL namespace repo tag serverName : string)
    (manifest : OCIManifest) :
  errs hasStagePrefix
    (validateManifest E ctx apiBaseURL namespace repo tag serverName manifest).
Proof.
  unfold validateManifest.
  apply errs_bind; [| intros digest; apply validateConfigDigest_errs].
  destruct (Manifests manifest) as [|first rest]; [apply errs_ret |].
  apply errs_bind; [apply errs_try; intros msg; stage |].
  intros specific. apply errs_ret.
Qed.

Lemma validateManifestResponse_errs
    (apiBaseURL namespace repo tag serverName : string) (resp : Response) :
  errs hasStagePrefix
    (validateManifestResponse E ctx apiBaseURL namespace repo tag serverName
       resp).
Proof.
  unfold validateManifestResponse.
  destruct (_ || _); [apply errs_fail; stage |].
  destruct (_ =? _)%Z;
    [apply errs_bind; [now intros w w' msg [=] | intros u; apply errs_ret] |].
  destruct (negb _); [apply errs_fail; stage |].
  apply errs_bind; [apply errs_try; intros msg; stage |].
  intros manifest. apply validateManifest_errs.
Qed.

Lemma manifestRequest_errs (pkg : Package)
    (apiBaseURL namespace repo tag : string) :
  errs hasStagePrefix
    (manifestRequest E ctx pkg apiBaseURL namespace repo tag).
Proof.
  unfold manifestRequest.
  apply errs_bind; [apply errs_try; intros msg; stage |]. intros req.
  apply errs_bind; [| intros req'; apply errs_ret].
  intros w w' msg. rewrite authenticate_eq.
  destruct (String.eqb apiBaseURL dockerIoAPIBaseURL); [| now intros [=]].
  revert w w' msg. unfold setDockerBearer.
  apply errs_bind; [apply errs_try; intros msg; stage |].
  intros token. apply errs_ret.
Qed.

Lemma ValidateOCI_errs (pkg : Package) (serverName : string) :
  errs hasStagePrefix (ValidateOCI E ctx pkg serverName).
Proof.
  unfold ValidateOCI.
  apply errs_bind.
  { apply errs_lift. intros msg H. apply resolveAPIBaseURL_Err in H as ->.
    stage. }
  intros apiBaseURL.
  apply errs_bind; [apply errs_try; intros msg; stage |]. intros ref.
  apply errs_bind; [apply manifestRequest_errs |]. intros req.
  apply errs_bind; [apply errs_try; intros msg; stage |]. intros resp.
  apply validateManifestResponse_errs.
Qed.

End Errors.



(** ** The log of a run *)

Section Log.

Context (E : Env) (ctx : Context).

Lemma getDockerIoAuthToken_quiet (namespace repo : string) :
  quiet (getDockerIoAuthToken E ctx namespace repo).
Proof.
  unfold getDockerIoAuthToken.
  apply quiet_bind; [apply quiet_try, quiet_lift |]. intros req.
  apply quiet_bind; [apply quiet_try, quiet_clientDo |]. intros resp.
  destruct (negb _); [apply quiet_fail |].
  apply quiet_bind; [apply quiet_try, quiet_lift |]. intros auth.
  apply quiet_ret.
Qed.

Lemma setDockerBearer_quiet (namespace repo : string) (req : Request) :
  quiet (setDockerBearer E ctx namespace repo req).
Proof.
  unfold setDockerBearer.
  apply quiet_bind; [apply quiet_try, getDockerIoAuthToken_quiet |].
  intros token. apply quiet_ret.
Qed.

Lemma getSpecificManifest_quiet (apiBaseURL namespace repo digest : string) :
  quiet (getSpecificManifest E ctx apiBaseURL namespace repo digest).
Proof.
  unfold getSpecificManifest, specificManifestRequest.
  apply quiet_bind.
  { apply quiet_bind; [apply quiet_try, quiet_lift |]. intros req.
    apply quiet_bind; [| intros req'; apply quiet_ret].
    destruct (String.eqb _ _); [apply setDockerBearer_quiet | apply quiet_ret]. }
  intros req.
  apply quiet_bind; [apply quiet_try, quiet_clientDo |]. intros resp.
  destruct (negb _); [apply quiet_fail | apply quiet_try, quiet_lift].
Qed.

Lemma getImageConfig_quiet (apiBaseURL namespace repo digest : string) :
  quiet (getImageConfig E ctx apiBaseURL namespace repo digest).
Proof.
  unfold getImageConfig, imageConfigRequest.
  apply quiet_bind.
  { apply quiet_bind; [apply quiet_try, quiet_lift |]. intros req.
    apply quiet_bind; [| intros req'; apply quiet_ret].
    destruct (String.eqb _ _); [apply setDockerBearer_quiet | apply quiet_ret]. }
  intros req.
  apply quiet_bind; [apply quiet_try, quiet_clientDo |]. intros resp.
  destruct (negb _); [apply quiet_fail | apply quiet_try, quiet_lift].
Qed.

Lemma validateManifest_quiet (apiBaseURL namespace repo tag serverName : string)
    (manifest : OCIManifest) :
  quiet (validateManifest E ctx apiBaseURL namespace repo tag serverName
           manifest).
Proof.
  unfold validateManifest, validateConfigDigest.
  apply quiet_bind.
  { destruct (Manifests manifest); [apply quiet_ret |].
    apply quiet_bind; [apply quiet_try, getSpecificManifest_quiet |].
    intros specific. apply quiet_ret. }
  intros digest. destruct (String.eqb _ _); [apply quiet_fail |].
  apply quiet_bind; [apply quiet_try, getImageConfig_quiet |].
  intros config. apply quiet_lift.
Qed.

Lemma manifestRequest_quiet (pkg : Package)
    (apiBaseURL namespace repo tag : string) :
  quiet (manifestRequest E ctx pkg apiBaseURL namespace repo tag).
Proof.
  intros w w' r H.
  now apply (manifestRequest_prepares E ctx apiBaseURL namespace repo pkg tag)
    in H as [H _].
Qed.

End Log.



(** ** Where the requests of a run go, and how many there are *)

Section Budget.

Context (E : Env) (ctx : Context).
Context (apiBaseURL namespace repo : string).

Local Abbreviation P := (onOrigin apiBaseURL namespace repo).

Local Ltac arith :=
  unfold tokenCost; destruct (String.eqb apiBaseURL dockerIoAPIBaseURL);
  simpl; lia.

Lemma sends_ext {A} (n : nat) (Q : A -> Prop) (m m' : M A) :
  (forall w, m w = m' w) -> sends n P Q m -> sends n P Q m'.
Proof. intros He Hm w w' r H. rewrite <- He in H. exact (Hm _ _ _ H). Qed.

Lemma getDockerIoAuthToken_sends :
  apiBaseURL = dockerIoAPIBaseURL ->
  sends 1 P (fun _ => True) (getDockerIoAuthToken E ctx namespace repo).
Proof.
  intros Hapi. unfold getDockerIoAuthToken.
  apply (sends_bind 0 1 P (fun req => req = tokenRequest namespace repo)).
  { apply sends_try, sends_lift. intros req H.
    now apply NewRequestWithContext_Ok in H. }
  intros req ->.
  apply (sends_bind 1 0 P (fun _ => True)).
  { apply sends_try, sends_clientDo. now left. }
  intros resp _. destruct (negb _); [apply sends_fail |].
  apply (sends_bind 0 0 P (fun _ => True));
    [apply sends_try; now apply sends_lift |].
  intros auth _. now apply sends_ret.
Qed.

(** The shape the three request-building blocks share. *)
Lemma builder_sends (prefix url accept : string) :
  sends (tokenCost apiBaseURL) P (built url)
    (do req <- try prefix (lift (NewRequestWithContext E ctx MethodGet url));
     do req <- (if String.eqb apiBaseURL dockerIoAPIBaseURL
                then setDockerBearer E ctx namespace repo req
                else ret req);
     ret (HeaderSet "User-Agent" "MCP-Registry-Validator/1.0"
            (HeaderSet "Accept" accept req))).
Proof.
  apply (sends_bind 0 _ P (fun req => Method req = MethodGet /\ URL req = url)).
  { apply sends_try, sends_lift. intros req H.
    apply NewRequestWithContext_Ok in H as ->. now split. }
  intros req0 [Hm Hu].
  apply (sends_weaken (tokenCost apiBaseURL + 0) _ P (built url) (built url));
    [| arith | auto].
  apply (sends_bind _ 0 P (fun req => Method req = MethodGet /\ URL req = url)).
  - unfold tokenCost.
    destruct (String.eqb_spec apiBaseURL dockerIoAPIBaseURL) as [Hapi|_];
      [| now apply sends_ret].
    unfold setDockerBearer.
    apply (sends_weaken (1 + 0) _ P
             (fun req => Method req = MethodGet /\ URL req = url)
             (fun req => Method req = MethodGet /\ URL req = url));
      [| arith | auto].
    apply (sends_bind 1 0 P (fun _ => True));
      [now apply sends_try, getDockerIoAuthToken_sends |].
    intros token _. apply sends_ret. now split.
  - intros req [Hm' Hu']. apply sends_ret. split; [exact Hm' |].
    split; [exact Hu' |]. unfold HeaderSet; simpl. apply lookup_insert_eq.
Qed.

Lemma manifestRequest_sends (pkg : Package) (tag : string) :
  sends (tokenCost apiBaseURL) P
    (built (manifestURL apiBaseURL namespace repo tag))
    (manifestRequest E ctx pkg apiBaseURL namespace repo tag).
Proof.
  eapply sends_ext;
    [| apply (builder_sends "failed to create manifest request: " _
                "application/vnd.docker.distribution.manifest.v2+json,application/vnd.oci.image.manifest.v1+json")].
  intros w. unfold manifestRequest, bind.
  destruct (try _ _ w) as [[req|msg] w1]; [| reflexivity].
  now rewrite authenticate_eq.
Qed.

Lemma built_manifest (reference : string) (req : Request) :
  built (manifestURL apiBaseURL namespace repo reference) req -> P req.
Proof.
  intros (Hm & Hu & Hh). right. split; [exact Hm |]. split; [| exact Hh].
  rewrite Hu. unfold manifestURL.
  change "/manifests/" with ("/" +:+ "manifests/").
  rewrite <- !append_assoc. rewrite (append_assoc _ "manifests/").
  apply HasPrefix_append.
Qed.

Lemma built_blob (digest : string) (req : Request) :
  built (blobURL apiBaseURL namespace repo digest) req -> P req.
Proof.
  intros (Hm & Hu & Hh). right. split; [exact Hm |]. split; [| exact Hh].
  rewrite Hu. unfold blobURL.
  change "/blobs/" with ("/" +:+ "blobs/").
  rewrite <- !append_assoc. rewrite (append_assoc _ "blobs/").
  apply HasPrefix_append.
Qed.

Lemma getSpecificManifest_sends (digest : string) :
  sends (tokenCost apiBaseURL + 1) P (fun _ => True)
    (getSpecificManifest E ctx apiBaseURL namespace repo digest).
Proof.
  unfold getSpecificManifest.
  apply (sends_bind _ 1 P
           (built (manifestURL apiBaseURL namespace repo digest)));
    [apply builder_sends |].
  intros req Hreq.
  apply (sends_bind 1 0 P (fun _ => True)).
  { apply sends_try, sends_clientDo. now apply built_manifest in Hreq. }
  intros resp _. destruct (negb _); [apply sends_fail |].
  now apply sends_try, sends_lift.
Qed.

Lemma getImageConfig_sends (digest : string) :
  sends (tokenCost apiBaseURL + 1) P (fun _ => True)
    (getImageConfig E ctx apiBaseURL namespace repo digest).
Proof.
  unfold getImageConfig.
  apply (sends_bind _ 1 P (built (blobURL apiBaseURL namespace repo digest)));
    [apply builder_sends |].
  intros req Hreq.
  apply (sends_bind 1 0 P (fun _ => True)).
  { apply sends_try, sends_clientDo. now apply built_blob in Hreq. }
  intros resp _. destruct (negb _); [apply sends_fail |].
  now apply sends_try, sends_lift.
Qed.

Lemma validateConfigDigest_sends (tag serverName digest : string) :
  sends (tokenCost apiBaseURL + 1) P (fun _ => True)
    (validateConfigDigest E ctx apiBaseURL namespace repo tag serverName digest).
Proof.
  unfold validateConfigDigest. destruct (String.eqb _ _).
  - apply (sends_weaken 0 _ P (fun _ => True) (fun _ => True));
      [apply sends_fail | arith | auto].
  - apply (sends_weaken (tokenCost apiBaseURL + 1 + 0) _ P
             (fun _ => True) (fun _ => True)); [| arith | auto].
    apply (sends_bind _ 0 P (fun _ => True));
      [apply sends_try, getImageConfig_sends |].
    intros config _. now apply sends_lift.
Qed.

Lemma validateManifest_sends (tag serverName : string)
    (manifest : OCIManifest) :
  sends (2 * (tokenCost apiBaseURL + 1)) P (fun _ => True)
    (validateManifest E ctx apiBaseURL namespace repo tag serverName manifest).
Proof.
  unfold validateManifest.
  apply (sends_weaken (tokenCost apiBaseURL + 1 + (tokenCost apiBaseURL + 1))
           _ P (fun _ => True) (fun _ => True)); [| arith | auto].
  apply (sends_bind _ _ P (fun _ => True));
    [| intros digest _; apply validateConfigDigest_sends].
  destruct (Manifests manifest) as [|first rest].
  - apply (sends_weaken 0 _ P (fun _ => True) (fun _ => True));
      [now apply sends_ret | arith | auto].
  - apply (sends_weaken (tokenCost apiBaseURL + 1 + 0) _ P
             (fun _ => True) (fun _ => True)); [| arith | auto].
    apply (sends_bind _ 0 P (fun _ => True));
      [apply sends_try, getSpecificManifest_sends |].
    intros specific _. now apply sends_ret.
Qed.

Lemma validateManifestResponse_sends (tag serverName : string)
    (resp : Response) :
  sends (2 * (tokenCost apiBaseURL + 1)) P (fun _ => True)
    (validateManifestResponse E ctx apiBaseURL namespace repo tag serverName
       resp).
Proof.
  unfold validateManifestResponse.
  destruct (_ || _);
    [apply (sends_weaken 0 _ P (fun _ => True) (fun _ => True));
     [apply sends_fail | arith | auto] |].
  destruct (_ =? _)%Z.
  { apply (sends_weaken 0 _ P (fun _ => True) (fun _ => True));
      [| arith | auto].
    intros w w' r [= <- <-]. split; [trivial |]. exists [].
    simpl. now rewrite app_nil_r. }
  destruct (negb _);
    [apply (sends_weaken 0 _ P (fun _ => True) (fun _ => True));
     [apply sends_fail | arith | auto] |].
  apply (sends_bind 0 _ P (fun _ => True));
    [apply sends_try; now apply sends_lift |].
  intros manifest _. apply validateManifest_sends.
Qed.

Lemma ValidateOCI_sends (pkg : Package) (serverName : string) :
  resolveAPIBaseURL (RegistryBaseURL (defaultRegistry pkg)) = Ok apiBaseURL ->
  parseImageReference (Identifier pkg) = Ok (namespace, repo) ->
  sends (3 * (tokenCost apiBaseURL + 1)) P (fun _ => True)
    (ValidateOCI E ctx pkg serverName).
Proof.
  intros Hres Hparse. unfold ValidateOCI.
  rewrite defaultRegistry_Identifier, Hres, Hparse.
  apply (sends_bind 0 _ P (fun api => api = apiBaseURL));
    [apply sends_lift; now intros api [= <-] |].
  intros api ->.
  apply (sends_bind 0 _ P (fun ref => ref = (namespace, repo)));
    [apply sends_try, sends_lift; now intros ref [= <-] |].
  intros ref ->. simpl fst; simpl snd.
  apply (sends_weaken
           (tokenCost apiBaseURL + (1 + 2 * (tokenCost apiBaseURL + 1)))
           _ P (fun _ => True) (fun _ => True)); [| arith | auto].
  apply (sends_bind _ _ P
           (built (manifestURL apiBaseURL namespace repo (Version (defaultRegistry pkg)))));
    [apply manifestRequest_sends |].
  intros req Hreq.
  apply (sends_bind 1 _ P (fun _ => True)).
  { apply sends_try, sends_clientDo. now apply built_manifest in Hreq. }
  intros resp _. apply validateManifestResponse_sends.
Qed.

End Budget.




(** ** What a success means *)

Section Success.

Context (E : Env) (ctx : Context).

Lemma bind_inv_Ok {A B} (m : M A) (k : A -> M B) (w w' : World) (b : B) :
  bind m k w = (Ok b, w') ->
  exists a w1, m w = (Ok a, w1) /\ k a w1 = (Ok b, w').
Proof.
  intros H. apply bind_inv in H as [H | (msg & _ & [=])]. exact H.
Qed.

Lemma try_inv_Ok {A} (prefix : string) (m : M A) (w w' : World) (a : A) :
  try prefix m w = (Ok a, w') -> m w = (Ok a, w').
Proof.
  intros H. apply try_inv in H as (r0 & H & Hr).
  destruct r0; [now injection Hr as <- | discriminate].
Qed.

Lemma checkServerName_Ok (labels : gmap string string)
    (namespace repo tag serverName : string) :
  checkServerName labels namespace repo tag serverName = Ok tt <->
  labels !! serverNameLabel = Some serverName.
Proof.
  unfold checkServerName. destruct (labels !! serverNameLabel) as [actual|].
  - destruct (String.eqb_spec actual serverName) as [->|Hne]; simpl.
    + tauto.
    + split; [discriminate | intros [= H]; contradiction].
  - split; discriminate.
Qed.

End Success.

(** X2. A success of [ValidateOCI] is one of two things: the first manifest
    request was answered with status 429 and nothing was requested after
    it, or the run fetched an image config whose label
    [io.modelcontextprotocol.server.name] is the server name given. *)
Theorem success_is_checked_or_rate_limited (E : Env) (ctx : Context)
    (pkg : Package) (serverName : string) (w w' : World) :
  ValidateOCI E ctx pkg serverName w = (Ok tt, w') ->
  (exists apiBaseURL namespace repo tag resp w1,
     manifestFetched E ctx pkg w apiBaseURL namespace repo tag resp w1 /\
     StatusCode resp = StatusTooManyRequests /\
     sent w' = sent w1) \/
  (exists apiBaseURL namespace repo tag config,
     configFetched E ctx pkg w apiBaseURL namespace repo tag config w' /\
     Labels (ImageConfig config) !! serverNameLabel = Some serverName).
Proof.
  intros H. unfold ValidateOCI in H.
  apply bind_inv_Ok in H as (api & w0 & [= Hres <-] & H).
  apply bind_inv_Ok in H as ([namespace repo] & w0 & Hp & H).
  apply try_inv_Ok in Hp. injection Hp as Hparse <-.
  rewrite defaultRegistry_Identifier in Hparse. simpl fst in H; simpl snd in H.
  apply bind_inv_Ok in H as (req & w1 & Hreq & H).
  apply bind_inv_Ok in H as (resp & w2 & Hdo & H).
  apply try_inv_Ok in Hdo.
  assert (Hf : manifestFetched E ctx pkg w api namespace repo
                 (Version (defaultRegistry pkg)) resp w2).
  { split; [exact Hres |]. split; [exact Hparse |].
    split; [apply defaultRegistry_Version |]. now exists req, w1. }
  unfold validateManifestResponse in H.
  destruct (_ || _); [discriminate |].
  destruct (Z.eqb_spec (StatusCode resp) StatusTooManyRequests) as [H429|_].
  { left. exists api, namespace, repo, (Version (defaultRegistry pkg)), resp, w2.
    split; [exact Hf |]. split; [exact H429 |]. now injection H as <-. }
  destruct (Z.eqb_spec (StatusCode resp) StatusOK) as [H200|_];
    [| discriminate]. simpl negb in H. cbv iota in H.
  apply bind_inv_Ok in H as (manifest & w3 & Hd & H).
  apply try_inv_Ok in Hd. injection Hd as Hd <-.
  assert (Hm : manifestDecoded E ctx pkg w api namespace repo
                 (Version (defaultRegistry pkg)) manifest w2)
    by now exists resp.
  unfold validateManifest in H.
  apply bind_inv_Ok in H as (digest & w3 & Hdig & H).
  assert (Hr : digestResolved E ctx pkg w api namespace repo
                 (Version (defaultRegistry pkg)) digest w3).
  { exists manifest, w2. split; [exact Hm |].
    destruct (Manifests manifest) as [|first rest].
    - now injection Hdig as <- <-.
    - apply bind_inv_Ok in Hdig as (specific & w4 & Hs & Hret).
      apply try_inv_Ok in Hs. injection Hret as <- <-. now exists specific. }
  unfold validateConfigDigest in H.
  destruct (String.eqb_spec digest EmptyString) as [|Hne]; [discriminate |].
  apply bind_inv_Ok in H as (config & w4 & Hc & H).
  apply try_inv_Ok in Hc. injection H as Hcheck <-.
  right. exists api, namespace, repo, (Version (defaultRegistry pkg)), config.
  split; [now exists digest, w3 |]. now apply checkServerName_Ok in Hcheck.
Qed.

Lemma success_is_checked_or_rate_limited_witness :
  (exists apiBaseURL namespace repo tag resp w1,
     manifestFetched mock.single liveContext mock.pkg mock.world0
       apiBaseURL namespace repo tag resp w1 /\
     StatusCode resp = StatusTooManyRequests /\
     sent (mock.after [mock.topRequest; mock.configRequest]) = sent w1) \/
  (exists apiBaseURL namespace repo tag config,
     configFetched mock.single liveContext mock.pkg mock.world0
       apiBaseURL namespace repo tag config
       (mock.after [mock.topRequest; mock.configRequest]) /\
     Labels (ImageConfig config) !! serverNameLabel
     = Some "com.example/test-server").
Proof.
  exact (success_is_checked_or_rate_limited mock.single liveContext mock.pkg
           "com.example/test-server" mock.world0 _ eq_refl).
Defined.

(** ** The server name and the requests *)

Section ServerName.

Context (E : Env) (ctx : Context).
Context (apiBaseURL namespace repo tag : string).

Lemma validateConfigDigest_world (digest name1 name2 : string) (w : World) :
  snd (validateConfigDigest E ctx apiBaseURL namespace repo tag name1 digest w)
  = snd (validateConfigDigest E ctx apiBaseURL namespace repo tag name2 digest w).
Proof.
  unfold validateConfigDigest. destruct (String.eqb _ _); [reflexivity |].
  unfold bind, lift.
  now destruct (try _ _ w) as [[config|msg] w1].
Qed.

Lemma validateManifest_world (manifest : OCIManifest) (name1 name2 : string)
    (w : World) :
  snd (validateManifest E ctx apiBaseURL namespace repo tag name1 manifest w)
  = snd (validateManifest E ctx apiBaseURL namespace repo tag name2 manifest w).
Proof.
  unfold validateManifest. destruct (Manifests manifest) as [|first rest].
  - apply validateConfigDigest_world.
  - unfold bind, ret.
    destruct (try _ _ w) as [[specific|msg] w1]; [| reflexivity].
    apply validateConfigDigest_world.
Qed.

Lemma validateManifestResponse_world (resp : Response) (name1 name2 : string)
    (w : World) :
  snd (validateManifestResponse E ctx apiBaseURL namespace repo tag name1 resp w)
  = snd (validateManifestResponse E ctx apiBaseURL namespace repo tag name2 resp w).
Proof.
  unfold validateManifestResponse.
  destruct (_ || _); [reflexivity |].
  destruct (_ =? _)%Z; [reflexivity |].
  destruct (negb _); [reflexivity |].
  unfold bind at 1 2.
  destruct (try _ _ w) as [[manifest|msg] w1]; [| reflexivity].
  apply validateManifest_world.
Qed.

End ServerName.

(** X3. The server name reaches no request: whatever name is claimed,
    [ValidateOCI] makes the same requests and writes the same log. The name
    is read by the label check alone. *)
Theorem requests_ignore_server_name (E : Env) (ctx : Context) (pkg : Package)
    (name1 name2 : string) (w : World) :
  snd (ValidateOCI E ctx pkg name1 w) = snd (ValidateOCI E ctx pkg name2 w).
Proof.
  unfold ValidateOCI. unfold bind at 1 5. unfold lift at 1 3.
  destruct (resolveAPIBaseURL _) as [api|msg]; [| reflexivity].
  unfold bind at 1 4.
  destruct (try _ _ w) as [[ref|msg] w0]; [| reflexivity].
  unfold bind at 1 3.
  destruct (manifestRequest _ _ _ _ _ _ _ w0) as [[req|msg] w1];
    [| reflexivity].
  unfold bind at 1 2.
  destruct (try _ _ w1) as [[resp|msg] w2]; [| reflexivity].
  apply validateManifestResponse_world.
Qed.

(** ** Edges of the pipeline *)

(** X1. Against Docker Hub, a token that cannot be obtained ends the run:
    once the manifest request is created, a failure of
    [getDockerIoAuthToken] is returned as "failed to authenticate with
    Docker registry", and the registry itself is not contacted; at most the
    token request has been sent. *)
Theorem docker_auth_failure_ends_run (E : Env) (ctx : Context) (pkg : Package)
    (serverName : string) (w w1 : World) (namespace repo msg : string)
    (req0 : Request) :
  resolveAPIBaseURL (RegistryBaseURL (defaultRegistry pkg))
  = Ok dockerIoAPIBaseURL ->
  parseImageReference (Identifier pkg) = Ok (namespace, repo) ->
  NewRequestWithContext E ctx MethodGet
    (manifestURL dockerIoAPIBaseURL namespace repo (Version pkg)) = Ok req0 ->
  getDockerIoAuthToken E ctx namespace repo w = (Err msg, w1) ->
  ValidateOCI E ctx pkg serverName w
  = (Err ("failed to authenticate with Docker registry: " +:+ msg), w1) /\
  (sent w1 = sent w \/ sent w1 = sent w ++ [tokenRequest namespace repo]).
Proof.
  intros Hres Hparse Hnew Htok. split.
  - unfold ValidateOCI.
    rewrite defaultRegistry_Identifier, defaultRegistry_Version, Hres, Hparse.
    rewrite (bind_Ok _ _ w w dockerIoAPIBaseURL eq_refl).
    rewrite (bind_Ok _ _ w w (namespace, repo) eq_refl). simpl fst; simpl snd.
    apply bind_Err. unfold manifestRequest. rewrite Hnew.
    rewrite (bind_Ok _ _ w w req0 eq_refl).
    apply bind_Err. rewrite authenticate_eq. simpl String.eqb. cbv iota.
    unfold setDockerBearer. apply bind_Err. now apply try_Err.
  - apply getDockerIoAuthToken_trace in Htok as [_ [[Hs _] | [Hs _]]]; auto.
Qed.

Lemma docker_auth_failure_ends_run_witness :
  ValidateOCI offline liveContext mock.dockerPkg "com.example/test-server"
    mock.world0
  = (Err "failed to authenticate with Docker registry: failed to request auth token: connection refused",
     mock.after [tokenRequest "library" "nginx"]).
Proof.
  exact (proj1 (docker_auth_failure_ends_run offline liveContext mock.dockerPkg
                  "com.example/test-server" mock.world0
                  (mock.after [tokenRequest "library" "nginx"])
                  "library" "nginx" _ _ eq_refl eq_refl eq_refl eq_refl)).
Defined.

(** X12. An identifier with two or more slashes is refused before any
    request is made, once the registry is found supported: the error is
    "invalid OCI image reference: invalid image reference: " followed by the
    identifier. *)
Theorem invalid_reference_makes_no_request (E : Env) (ctx : Context)
    (pkg : Package) (serverName apiBaseURL : string) (w : World) :
  resolveAPIBaseURL (RegistryBaseURL (defaultRegistry pkg)) = Ok apiBaseURL ->
  2 <= count "/" (Identifier pkg) ->
  ValidateOCI E ctx pkg serverName w
  = (Err ("invalid OCI image reference: invalid image reference: "
          +:+ Identifier pkg), w).
Proof.
  intros Hres Hcount.
  destruct (count "/" (Identifier pkg)) as [|[|n]] eqn:Hc; try lia.
  unfold ValidateOCI.
  rewrite defaultRegistry_Identifier, Hres,
    (parseImageReference_more_slashes _ n Hc).
  reflexivity.
Qed.

Lemma invalid_reference_makes_no_request_witness :
  ValidateOCI mock.single liveContext
    {| RegistryType := "oci"; RegistryBaseURL := mock.base;
       Identifier := "too/many/slashes"; Version := "1.0.0" |}
    "com.example/test-server" mock.world0
  = (Err "invalid OCI image reference: invalid image reference: too/many/slashes",
     mock.world0).
Proof.
  apply (invalid_reference_makes_no_request mock.single liveContext
           {| RegistryType := "oci"; RegistryBaseURL := mock.base;
              Identifier := "too/many/slashes"; Version := "1.0.0" |}
           "com.example/test-server" mock.base mock.world0);
    [reflexivity | simpl; lia].
Defined.

(** X13. With a nil context no request can be created, and none is sent:
    [getDockerIoAuthToken], [getSpecificManifest] and [getImageConfig]
    return their "failed to create ... request" error and leave the world as
    it was, and so does [ValidateOCI] on a supported registry and a valid
    identifier. *)
Theorem nil_context_sends_nothing (E : Env) (w : World)
    (apiBaseURL namespace repo digest : string) :
  exists cause,
    getDockerIoAuthToken E nilContext namespace repo w
    = (Err ("failed to create auth request: " +:+ cause), w) /\
    getSpecificManifest E nilContext apiBaseURL namespace repo digest w
    = (Err ("failed to create specific manifest request: " +:+ cause), w) /\
    getImageConfig E nilContext apiBaseURL namespace repo digest w
    = (Err ("failed to create config request: " +:+ cause), w) /\
    forall (pkg : Package) (serverName : string),
      resolveAPIBaseURL (RegistryBaseURL (defaultRegistry pkg)) = Ok apiBaseURL ->
      parseImageReference (Identifier pkg) = Ok (namespace, repo) ->
      ValidateOCI E nilContext pkg serverName w
      = (Err ("failed to create manifest request: " +:+ cause), w).
Proof.
  exists "net/http: nil Context". do 3 (split; [reflexivity |]).
  intros pkg serverName Hres Hparse. unfold ValidateOCI.
  now rewrite defaultRegistry_Identifier, Hres, Hparse.
Qed.

Lemma nil_context_sends_nothing_witness :
  exists cause,
    ValidateOCI mock.single nilContext mock.pkg "com.example/test-server"
      mock.world0
    = (Err ("failed to create manifest request: " +:+ cause), mock.world0).
Proof.
  destruct (nil_context_sends_nothing mock.single mock.world0 mock.base
              "example" "test-server" "sha256:abc123")
    as (cause & _ & _ & _ & H).
  exists cause. now apply H.
Defined.

(** ** The parser, the label check and the resolver *)

(** X7. What [parseImageReference] returns holds no slash, and gives the
    identifier back: either the identifier has no slash, the namespace is
    ["library"] and the repository is the identifier, or it has one and is
    the namespace, a slash and the repository. *)
Theorem parseImageReference_components (identifier namespace repo : string) :
  parseImageReference identifier = Ok (namespace, repo) ->
  count "/" namespace = 0 /\ count "/" repo = 0 /\
  ((count "/" identifier = 0 /\ namespace = "library" /\ repo = identifier) \/
   (count "/" identifier = 1 /\ identifier = namespace +:+ "/" +:+ repo)).
Proof.
  intros H. destruct (count "/" identifier) as [|[|n]] eqn:Hc.
  - rewrite (parseImageReference_no_slash _ Hc) in H. injection H as <- <-.
    split; [reflexivity |]. split; [exact Hc |]. left. auto.
  - destruct (count_cut _ _ _ Hc) as (p0 & p1 & -> & H0 & H1).
    unfold parseImageReference in H.
    rewrite (Split_at_separator _ _ _ H0), (Split_no_separator _ _ H1) in H.
    injection H as <- <-. split; [exact H0 |]. split; [exact H1 |].
    right. split; reflexivity.
  - rewrite (parseImageReference_more_slashes _ n Hc) in H. discriminate.
Qed.

Lemma parseImageReference_components_witness :
  count "/" "myorg" = 0 /\ count "/" "myrepo" = 0 /\
  ((count "/" "myorg/myrepo" = 0 /\ "myorg" = "library" /\
    "myrepo" = "myorg/myrepo") \/
   (count "/" "myorg/myrepo" = 1 /\
    "myorg/myrepo" = "myorg" +:+ "/" +:+ "myrepo")).
Proof.
  exact (parseImageReference_components "myorg/myrepo" "myorg" "myrepo"
           eq_refl).
Defined.

(** X8. The label check reads one label. It succeeds exactly when the
    label [io.modelcontextprotocol.server.name] is present with the server
    name as its value, and setting or deleting any other label changes
    neither its verdict nor its message. *)
Theorem only_the_server_name_label_counts (labels : gmap string string)
    (namespace repo tag serverName : string) :
  (checkServerName labels namespace repo tag serverName = Ok tt <->
   labels !! serverNameLabel = Some serverName) /\
  forall key value : string,
    key <> serverNameLabel ->
    checkServerName (<[key := value]> labels) namespace repo tag serverName
    = checkServerName labels namespace repo tag serverName /\
    checkServerName (delete key labels) namespace repo tag serverName
    = checkServerName labels namespace repo tag serverName.
Proof.
  split; [apply checkServerName_Ok |].
  intros key value Hne. unfold checkServerName.
  now rewrite lookup_insert_ne, lookup_delete_ne.
Qed.

Section ResolverTable.

(** Every entry of the table but Docker Hub's two maps a base URL to
    itself. *)
Lemma supportedRegistries_Some (url apiBaseURL : string) :
  supportedRegistries !! url = Some apiBaseURL ->
  apiBaseURL = url \/
  (apiBaseURL = dockerIoAPIBaseURL /\
   (url = RegistryURLDocker \/ url = RegistryURLDockerHub)).
Proof.
  intros H. apply elem_of_list_to_map_2 in H.
  repeat (apply elem_of_cons in H as [H|H];
          [apply pair_equal_spec in H as [-> ->];
           first [now left | right; split; [reflexivity |]; now left
                 | right; split; [reflexivity |]; now right] |]).
  now apply elem_of_nil in H.
Qed.

End ResolverTable.

(** X9. The API base URL resolved for a base URL is that base URL itself,
    for every key of the table and every fallback, with one exception:
    [https://docker.io] and [https://hub.docker.com] resolve to
    [https://registry-1.docker.io]. *)
Theorem resolved_origin_is_own_or_docker (url apiBaseURL : string) :
  resolveAPIBaseURL url = Ok apiBaseURL ->
  apiBaseURL = url \/
  (apiBaseURL = dockerIoAPIBaseURL /\
   (url = RegistryURLDocker \/ url = RegistryURLDockerHub)).
Proof.
  intros H. destruct (resolveAPIBaseURL_Ok _ _ H) as [Ht | ->];
    [now apply supportedRegistries_Some | now left].
Qed.

Lemma resolved_origin_is_own_or_docker_witness :
  "https://ghcr.io" = RegistryURLGHCR \/
  ("https://ghcr.io" = dockerIoAPIBaseURL /\
   (RegistryURLGHCR = RegistryURLDocker \/
    RegistryURLGHCR = RegistryURLDockerHub)).
Proof.
  exact (resolved_origin_is_own_or_docker RegistryURLGHCR "https://ghcr.io"
           eq_refl).
Defined.

(** X10. Which packages have a supported registry: those whose base URL is
    empty, is a key of the table, or satisfies a condition of the fallback
    chain, and no others. *)
Theorem supported_registries (pkg : Package) :
  isOk (resolveAPIBaseURL (RegistryBaseURL (defaultRegistry pkg))) = true <->
  RegistryBaseURL pkg = EmptyString \/
  is_Some (supportedRegistries !! RegistryBaseURL pkg) \/
  existsb (fun matches => matches (RegistryBaseURL pkg)) fallbacks = true.
Proof.
  destruct (String.eqb_spec (RegistryBaseURL pkg) EmptyString) as [He|Hne].
  - rewrite (defaultRegistry_empty pkg He). split; [now left | reflexivity].
  - rewrite (defaultRegistry_given pkg Hne).
    destruct (supportedRegistries !! RegistryBaseURL pkg) as [api|] eqn:Ht.
    + unfold resolveAPIBaseURL. rewrite Ht. split; [| reflexivity].
      intros _. right. left. now exists api.
    + rewrite (resolveAPIBaseURL_off_table _ Ht).
      destruct (existsb _ fallbacks); simpl.
      * split; [intros _; now right; right | reflexivity].
      * split; [discriminate |].
        intros [H | [[x H] | H]]; [contradiction | discriminate..].
Qed.

Lemma only_the_server_name_label_counts_witness :
  checkServerName
    (<["maintainer" := "someone"]> {[ serverNameLabel := "com.example/test-server" ]})
    "example" "test-server" "1.0.0" "com.example/test-server"
  = checkServerName {[ serverNameLabel := "com.example/test-server" ]}
      "example" "test-server" "1.0.0" "com.example/test-server".
Proof.
  refine (proj1 (proj2 (only_the_server_name_label_counts
                          {[ serverNameLabel := "com.example/test-server" ]}
                          "example" "test-server" "1.0.0"
                          "com.example/test-server")
                   "maintainer" "someone" _)).
  discriminate.
Defined.

(** ** What a fetch returns *)

Section Fetched.

Context (E : Env) (ctx : Context).
Context (apiBaseURL namespace repo : string).

Lemma clientDo_Ok (req : Request) (resp : Response) (w w' : World) :
  clientDo E req w = (Ok resp, w') ->
  transport E (sent w) req = inr resp /\ sent w' = sent w ++ [req].
Proof.
  unfold clientDo. destruct (transport E (sent w) req); [discriminate |].
  now intros [= <- <-].
Qed.

End Fetched.


